(** * The sd-miner job-polling worker (miner-release/sd-miner-v1.1.0.py)

    A shallow embedding of the orchestration code of the miner: the
    [MinerConfig] constructor, [send_miner_request],
    [check_and_reload_model], [process_jobs], the per-device [main] loop and
    the supervisor block under [if __name__ == "__main__"].

    Conventions.
    - Python dictionaries whose order is irrelevant (request bodies, JSON
      objects) are [gmap string pyval]; [config.loaded_models], whose first
      key is selected by [next(iter(...), None)], is the list of its keys in
      insertion order.
    - Readings of [time.time()] and quantities of seconds are integers [Z]:
      the code only subtracts and compares them.
    - The code is effectful: it mutates the config object, talks to the
      coordinator, logs, sleeps and raises.  Computations live in a small
      monad [M] that threads the config, collects the observable events in
      program order and may end in a raised exception; the config mutations
      done before a raise persist, as they do for a Python object.
    - The answers of the collaborators imported from [sd_mining_core] and of
      the clock are not computed by this file of the repository: each call
      site reads its answer from a script [Answers], one per loop iteration,
      over which the theorems quantify. *)

From Stdlib Require Import ZArith Lia.
From stdpp Require Import base strings list gmap pretty.

#[local] Set Warnings "-clear-no-such-hyp".

Open Scope Z_scope.

(** ** Values *)

(** The Python values that travel through this file. *)
#[local] Set Warnings "-register-all".
Inductive pyval : Type :=
| VNone
| VBool (b : bool)
| VInt (z : Z)
| VStr (s : string)
| VDict (d : gmap string pyval).

Abbreviation dict := (gmap string pyval).

(** Python truthiness, [bool(v)]. *)
Definition truthy (v : pyval) : bool :=
  match v with
  | VNone => false
  | VBool b => b
  | VInt z => negb (z =? 0)
  | VStr s => negb (String.eqb s "")
  | VDict d => negb (bool_decide (d = ∅))
  end.

(** [v in ids] for a list of strings [ids]: Python compares with [==],
    and only a string equals a string. *)
Definition member_of (v : pyval) (ids : list string) : bool :=
  match v with
  | VStr s => bool_decide (s ∈ ids)
  | _ => false
  end.

(** ** Exceptions *)

Inductive exn : Type :=
| KeyError (key : string)
| IndexError
| TypeError
| ValueError (msg : string)
| RuntimeError (msg : string)
| SystemExit (code : Z)
| KeyboardInterrupt.

(** [isinstance(e, Exception)]: what [except Exception] catches.
    [SystemExit] and [KeyboardInterrupt] derive from [BaseException] only. *)
Definition is_Exception (e : exn) : bool :=
  match e with
  | SystemExit _ | KeyboardInterrupt => false
  | _ => true
  end.

(** The status with which the interpreter of the supervisor leaves when
    [e] reaches its top level uncaught. *)
Definition exit_status (e : exn) : Z :=
  match e with
  | SystemExit code => code
  | KeyboardInterrupt => 130
  | _ => 1
  end.

(** The exit code of a worker, a [multiprocessing] child whose target
    raised [e]: the code of a [SystemExit], and 1 for any other exception,
    [KeyboardInterrupt] included. *)
Definition child_exit_status (e : exn) : Z :=
  match e with
  | SystemExit code => code
  | _ => 1
  end.

(** ** HTTP responses *)

(** A [requests.Response]: [resp_json] is [None] when the body does not
    parse to a JSON object, in which case [response.json().get(...)]
    raises. *)
Record Response : Type := {
  status_code : Z;
  text : string;
  resp_json : option dict
}.

(** [bool(response)] is [response.ok]: no 4xx or 5xx status. *)
Definition response_ok (r : Response) : bool :=
  negb ((400 <=? status_code r) && (status_code r <? 600)).

(** ** Observable events *)

Inductive level : Type := DEBUG | INFO | ERROR.

(** The texts printed or logged, one constructor per format string. *)
Inductive message : Type :=
| MsgMinerIdMissing (gpu : nat)
    (* "ERROR: Miner ID for GPU {i} not found in .env. Exiting..." *)
| MsgMinerIdPrefix (miner_id : string) (gpu : nat)
    (* "WARNING: Miner ID {miner_id} for GPU {i} does not start with '0x'." *)
| MsgMinerIdNotFound
    (* "ERROR: miner_id not found in .env. Exiting..." *)
| MsgHeartbeat (at_time : Z) (hardware : pyval) (version miner_id : string)
    (* "Heartbeat updated at ... with hardware ... and version ..." *)
| MsgWarning (warning_message : string)
    (* "WARNING: {warning_message}" *)
| MsgProcessing (job_id model_id : pyval)
    (* "Processing Request ID: {job_id}. Model ID: {model_id}." *)
| MsgBadResponseData (e : exn)
    (* "Failed to process response data: {e}" *)
| MsgSignalFailed (miner_id : string)
    (* "Failed to get a valid response from /miner_signal for miner_id ..." *)
| MsgNoModels
    (* "No models found. Exiting..." *)
| MsgNoJob
    (* "No job received." *)
| MsgErrorOccurred (e : exn)
    (* "Error occurred:" with exc_info *)
| MsgTooManyDevices
    (* "Number of CUDA devices specified in config is greater than available. Exiting..." *).

Inductive event : Type :=
| EvPrint (m : message)
| EvLog (l : level) (m : message)
| EvPost (url : string) (body : dict) (miner_id : string)
| EvReload (model_id : pyval)
| EvSubmit (miner_id : string) (job : pyval) (temp_credentials : pyval)
           (job_start_time request_latency : Z)
| EvSleep (seconds : Z)
| EvCheckCuda
| EvFetchConfigFiles
| EvStartUpdater
| EvSpawn (cuda_device_id : nat)
| EvJoin (cuda_device_id : nat).

(** ** The config object *)

(** The attributes of [BaseConfig] this file reads, with the two it
    writes ([last_heartbeat], and [miner_id] in the constructor) and the one
    [reload_model] writes ([loaded_models]). *)
Record Config : Type := {
  miner_id : string;
  base_url : string;
  signal_url : string;
  reload_interval : Z;
  sleep_duration : Z;
  min_deadline : Z;
  num_cuda_devices : nat;
  exclude_sdxl : bool;
  version : string;
  last_heartbeat : Z;
  loaded_models : list string
}.

Definition set_miner_id (v : string) (c : Config) : Config :=
  {| miner_id := v; base_url := base_url c; signal_url := signal_url c;
     reload_interval := reload_interval c; sleep_duration := sleep_duration c;
     min_deadline := min_deadline c; num_cuda_devices := num_cuda_devices c;
     exclude_sdxl := exclude_sdxl c; version := version c;
     last_heartbeat := last_heartbeat c; loaded_models := loaded_models c |}.

Definition set_last_heartbeat (v : Z) (c : Config) : Config :=
  {| miner_id := miner_id c; base_url := base_url c; signal_url := signal_url c;
     reload_interval := reload_interval c; sleep_duration := sleep_duration c;
     min_deadline := min_deadline c; num_cuda_devices := num_cuda_devices c;
     exclude_sdxl := exclude_sdxl c; version := version c;
     last_heartbeat := v; loaded_models := loaded_models c |}.

Definition set_loaded_models (v : list string) (c : Config) : Config :=
  {| miner_id := miner_id c; base_url := base_url c; signal_url := signal_url c;
     reload_interval := reload_interval c; sleep_duration := sleep_duration c;
     min_deadline := min_deadline c; num_cuda_devices := num_cuda_devices c;
     exclude_sdxl := exclude_sdxl c; version := version c;
     last_heartbeat := last_heartbeat c; loaded_models := v |}.

(** ** The monad of effects *)

Inductive outcome (A : Type) : Type :=
| Ret (a : A)
| Raise (e : exn).
Arguments Ret {A} a.
Arguments Raise {A} e.

(** One run: how it ended, the config it left, the events it produced. *)
Record run (A : Type) : Type := Run {
  result : outcome A;
  final : Config;
  emitted : list event
}.
Arguments Run {A} _ _ _.
Arguments result {A} _.
Arguments final {A} _.
Arguments emitted {A} _.

Definition M (A : Type) : Type := Config → run A.

Definition ret_M {A} (a : A) : M A := λ c, Run (Ret a) c [].

Definition bind_M {A B} (f : A → M B) (m : M A) : M B := λ c,
  match m c with
  | Run (Ret a) c1 evs1 =>
      match f a c1 with
      | Run o c2 evs2 => Run o c2 (evs1 ++ evs2)
      end
  | Run (Raise e) c1 evs1 => Run (Raise e) c1 evs1
  end.

#[global] Instance M_ret : MRet M := @ret_M.
#[global] Instance M_bind : MBind M := @bind_M.

(** [raise e]. *)
Definition raise {A} (e : exn) : M A := λ c, Run (Raise e) c [].

(** An observable action. *)
Definition emit (ev : event) : M unit := λ c, Run (Ret tt) c [ev].

(** Reading an attribute of the config, and mutating the config. *)
Definition attr {A} (f : Config → A) : M A := λ c, Run (Ret (f c)) c [].
Definition mutate (f : Config → Config) : M unit := λ c, Run (Ret tt) (f c) [].

(** What a call to a collaborator answers: a value, or an exception. *)
Definition answer {A} (o : outcome A) : M A :=
  match o with
  | Ret a => mret a
  | Raise e => raise e
  end.

(** [try: m  except Exception as e: h e  else: k a], where [k] continues
    with the value of [m] outside the protection of this handler.  An
    exception that is not an [Exception] is not caught. *)
Definition try_except {A B} (m : M A) (k : A → M B) (h : exn → M B) : M B := λ c,
  match m c with
  | Run (Ret a) c1 evs1 =>
      match k a c1 with
      | Run o c2 evs2 => Run o c2 (evs1 ++ evs2)
      end
  | Run (Raise e) c1 evs1 =>
      if is_Exception e then
        match h e c1 with
        | Run o c2 evs2 => Run o c2 (evs1 ++ evs2)
        end
      else Run (Raise e) c1 evs1
  end.

(** ** Strings *)

Module Str.

(** [needle in s]. *)
Definition contains (needle s : string) : bool :=
  match String.index 0 needle s with
  | Some _ => true
  | None => false
  end.

(** What follows the first occurrence of [sep] in [s], if there is one. *)
Definition after_first (sep s : string) : option string :=
  match String.index 0 sep s with
  | Some i =>
      let from := (i + String.length sep)%nat in
      Some (String.substring from (String.length s - from) s)
  | None => None
  end.

(** What precedes the first occurrence of [sep] in [s]; all of [s] when
    there is none. *)
Definition before_first (sep s : string) : string :=
  match String.index 0 sep s with
  | Some i => String.substring 0 i s
  | None => s
  end.

(** [s.split(sep)[1]]; [None] stands for the [IndexError] of a
    one-element list. *)
Definition split_1 (sep s : string) : option string :=
  before_first sep <$> after_first sep s.

Fixpoint lstrip (ch : Ascii.ascii) (s : string) : string :=
  match s with
  | String a s' => if Ascii.eqb a ch then lstrip ch s' else s
  | EmptyString => EmptyString
  end.

Fixpoint rstrip (ch : Ascii.ascii) (s : string) : string :=
  match s with
  | String a s' =>
      match rstrip ch s' with
      | EmptyString => if Ascii.eqb a ch then EmptyString else String a EmptyString
      | t => String a t
      end
  | EmptyString => EmptyString
  end.

(** [s.strip(ch)] for a one-character [ch]. *)
Definition strip (ch : Ascii.ascii) (s : string) : string := rstrip ch (lstrip ch s).

(** The double quote character. *)
Definition dquote : Ascii.ascii := Ascii.ascii_of_nat 34.

End Str.

(** ** Python operators on values *)

(** [key in v]: keys of a dict, substrings of a string, [TypeError] for a
    value that is not a container. *)
Definition py_contains (key : string) (v : pyval) : outcome bool :=
  match v with
  | VDict d => Ret (bool_decide (is_Some (d !! key)))
  | VStr s => Ret (Str.contains key s)
  | _ => Raise TypeError
  end.

(** [v[key]] for a string [key]. *)
Definition py_getitem (v : pyval) (key : string) : outcome pyval :=
  match v with
  | VDict d =>
      match d !! key with
      | Some x => Ret x
      | None => Raise (KeyError key)
      end
  | _ => Raise TypeError
  end.

(** [d.get(key)]. *)
Definition py_get (d : dict) (key : string) : pyval := default VNone (d !! key).

(** [next(iter(models), None)]. *)
Definition first_or_None (models : list string) : pyval :=
  match models with
  | m :: _ => VStr m
  | [] => VNone
  end.

(** ** The answers of the clock and of the collaborators *)

(** What the world answers during one iteration of the loop of [main], one
    field per call site (the line of the call in the source is given). *)
Record Answers : Type := {
  (* check_and_reload_model *)
  time_check : Z;                               (* 93: time.time() *)
  signal_response : outcome (option Response);  (* 96: post_request *)
  local_ids_check : list string;                (* 106: get_local_model_ids *)
  reload_answer : outcome (list string);        (* 107: reload_model, the
                                                   loaded models it leaves *)
  (* process_jobs *)
  local_ids : list string;                      (* 117: get_local_model_ids *)
  time_job_start : Z;                           (* 127: time.time() *)
  submit_answer : outcome unit;                 (* 129: submit_job_result *)
  (* send_miner_request *)
  time_heartbeat_test : Z;                      (* 61: time.time() *)
  hardware : pyval;                             (* 62: get_hardware_description *)
  time_heartbeat_set : Z;                       (* 64: time.time() *)
  time_start : Z;                               (* 67: time.time() *)
  job_response : outcome (option Response);     (* 68: post_request *)
  time_end : Z;                                 (* 69: time.time() *)
  response_data : outcome pyval                 (* 79: log_response *)
}.

(** ** MinerConfig *)

(** [os.getenv(name)]. *)
Definition getenv (environ : gmap string string) (name : string) : option string :=
  environ !! name.

(** [f'MINER_ID_{i}']. *)
Definition miner_id_var (i : nat) : string := "MINER_ID_" +:+ pretty i.

(** The [for i, miner_id in enumerate(miner_ids)] loop of
    [_load_and_validate_miner_ids], from index [i] on. *)
Fixpoint validate_miner_ids (miner_ids : list (option string)) (i : nat) : M unit :=
  match miner_ids with
  | [] => mret tt
  | None :: _ =>
      emit (EvPrint (MsgMinerIdMissing i));;
      raise (ValueError ("Miner ID for GPU " +:+ pretty i +:+ " not found in .env."))
  | Some miner_id :: rest =>
      (if String.prefix "0x" miner_id then mret tt
       else emit (EvPrint (MsgMinerIdPrefix miner_id i)));;
      validate_miner_ids rest (S i)
  end.

Definition _load_and_validate_miner_ids (environ : gmap string string)
  : M (list (option string)) :=
  n ← attr num_cuda_devices;
  let miner_ids := (λ i, getenv environ (miner_id_var i)) <$> seq 0 n in
  validate_miner_ids miner_ids 0;;
  mret miner_ids.

(** [miner_ids[i]]. *)
Definition py_index (miner_ids : list (option string)) (i : nat) : M (option string) :=
  match miner_ids !! i with
  | Some x => mret x
  | None => raise IndexError
  end.

(** The string behind a truthy entry of [miner_ids]: neither [None] nor
    empty. *)
Definition truthy_id (x : option string) : option string :=
  match x with
  | Some s => if String.eqb s "" then None else Some s
  | None => None
  end.

Definition _assign_miner_id (miner_ids : list (option string)) (cuda_device_id : nat)
  : M string :=
  n ← attr num_cuda_devices;
  own ← (if (1 <? n)%nat then x ← py_index miner_ids cuda_device_id; mret (truthy_id x)
         else mret None);
  match own with
  | Some s => mret s
  | None =>
      first ← py_index miner_ids 0;
      match truthy_id first with
      | Some s => mret s
      | None =>
          emit (EvPrint MsgMinerIdNotFound);;
          raise (ValueError "miner_id not found in .env.")
      end
  end.

(** [MinerConfig.__init__], run on the config that [BaseConfig.__init__]
    has filled from the config file; [environ] is the environment after
    [load_dotenv()]. *)
Definition MinerConfig_init (environ : gmap string string) (cuda_device_id : nat)
  : M unit :=
  miner_ids ← _load_and_validate_miner_ids environ;
  assigned ← _assign_miner_id miner_ids cuda_device_id;
  mutate (set_miner_id assigned).

(** ** send_miner_request *)

(** [post_request(url, body, miner_id)]: the call is observable, its
    answer comes from the script. *)
Definition post_request (url : string) (body : dict) (miner : string)
    (reply : outcome (option Response)) : M (option Response) :=
  emit (EvPost url body miner);;
  answer reply.

(** Lines 73-77: the warning embedded in the text of the response. *)
Definition surface_warning (response : option Response) : M unit :=
  let warning_indicator := "Warning:" in
  match response with
  | Some r =>
      if response_ok r && Str.contains warning_indicator (text r) then
        match Str.split_1 warning_indicator (text r) with
        | Some piece => emit (EvPrint (MsgWarning (Str.strip Str.dquote piece)))
        | None => raise IndexError
        end
      else mret tt
  | None => mret tt
  end.

(** Lines 83-86, the body of the [try]: the friendly message for a valid
    job.  [and] evaluates its right operand only when the left one holds. *)
Definition announce_job (data : pyval) : M unit :=
  if truthy data then
    has_job ← answer (py_contains "job_id" data);
    if has_job : bool then
      has_model ← answer (py_contains "model_id" data);
      if has_model : bool then
        job_id ← answer (py_getitem data "job_id");
        model_id ← answer (py_getitem data "model_id");
        emit (EvPrint (MsgProcessing job_id model_id))
      else mret tt
    else mret tt
  else mret tt.

Definition send_miner_request (a : Answers) (model_id : pyval) (deadline : Z)
  : M (pyval * Z) :=
  miner ← attr miner_id;
  let request_data : dict :=
    {[ "miner_id" := VStr miner; "model_id" := model_id; "min_deadline" := VInt deadline ]} in
  heartbeat ← attr last_heartbeat;
  request_data ←
    (if 60 <=? time_heartbeat_test a - heartbeat then
       ver ← attr version;
       let request_data :=
         <["version" := VStr ver]> (<["hardware" := hardware a]> request_data) in
       mutate (set_last_heartbeat (time_heartbeat_set a));;
       emit (EvLog DEBUG (MsgHeartbeat (time_heartbeat_set a) (hardware a) ver miner));;
       mret request_data
     else mret request_data);
  let start_time := time_start a in
  url ← attr base_url;
  response ← post_request (url +:+ "/miner_request") request_data miner (job_response a);
  let end_time := time_end a in
  let request_latency := end_time - start_time in
  surface_warning response;;
  data ← answer (response_data a);
  try_except (announce_job data)
    (λ _, mret (data, request_latency))
    (λ e, emit (EvLog ERROR (MsgBadResponseData e));; mret (data, request_latency)).

(** ** check_and_reload_model *)

(** [reload_model(config, model_id)]: the call is observable; the loaded
    models it leaves come from the script. *)
Definition reload_model (a : Answers) (model_id : pyval) : M unit :=
  emit (EvReload model_id);;
  models ← answer (reload_answer a);
  mutate (set_loaded_models models).

(** [response.json()]. *)
Definition json (r : Response) : M dict :=
  match resp_json r with
  | Some d => mret d
  | None => raise (ValueError "Expecting value")
  end.

(** [response and response.status_code == 200]. *)
Definition is_200 (response : option Response) : option Response :=
  match response with
  | Some r => if response_ok r && (status_code r =? 200) then Some r else None
  | None => None
  end.

Definition check_and_reload_model (a : Answers) (last_signal_time : Z) : M Z :=
  let current_time := time_check a in
  interval ← attr reload_interval;
  last_signal_time ←
    (if interval <=? current_time - last_signal_time then
       url ← attr signal_url;
       miner ← attr miner_id;
       exclude ← attr exclude_sdxl;
       response ← post_request (url +:+ "/miner_signal")
                    {[ "miner_id" := VStr miner;
                       "options" := VDict {[ "exclude_sdxl" := VBool exclude ]} ]}
                    miner (signal_response a);
       match is_200 response with
       | Some r =>
           body ← json r;
           let model_id_from_signal := py_get body "model_id" in
           loaded ← attr loaded_models;
           if member_of model_id_from_signal (local_ids_check a)
              && negb (member_of model_id_from_signal loaded)
           then
             reload_model a model_id_from_signal;;
             mret current_time
           else mret last_signal_time
       | None =>
           emit (EvLog ERROR (MsgSignalFailed miner));;
           mret last_signal_time
       end
     else mret last_signal_time);
  interval ← attr reload_interval;
  mret (if current_time - last_signal_time <? interval then last_signal_time
        else current_time).

(** ** process_jobs *)

Definition process_jobs (a : Answers) : M bool :=
  loaded ← attr loaded_models;
  let current_model_id := first_or_None loaded in
  let model_ids := local_ids a in
  match model_ids with
  | [] =>
      emit (EvLog DEBUG MsgNoModels);;
      raise (SystemExit 0)
  | _ :: _ =>
      deadline ← attr min_deadline;
      '(job, request_latency) ← send_miner_request a current_model_id deadline;
      if truthy job then
        let job_start_time := time_job_start a in
        job_id ← answer (py_getitem job "job_id");
        model_id ← answer (py_getitem job "model_id");
        emit (EvLog INFO (MsgProcessing job_id model_id));;
        miner ← attr miner_id;
        temp_credentials ← answer (py_getitem job "temp_credentials");
        emit (EvSubmit miner job temp_credentials job_start_time request_latency);;
        answer (submit_answer a);;
        mret true
      else
        emit (EvLog INFO MsgNoJob);;
        mret false
  end.

(** ** The loop of main *)

(** Line 151, the body of the handler ([executed = False] is the argument
    of [idle_sleep] below). *)
Definition log_error (e : exn) : M unit :=
  emit (EvLog ERROR (MsgErrorOccurred e)).

(** [time.sleep(seconds)]: the call is observable; a negative length is
    refused with [ValueError]. *)
Definition time_sleep (seconds : Z) : M unit :=
  emit (EvSleep seconds);;
  if seconds <? 0 then raise (ValueError "sleep length must be non-negative")
  else mret tt.

(** Lines 153-154, after the [try] statement: what [time.sleep] raises is
    not caught. *)
Definition idle_sleep (executed : bool) : M unit :=
  if executed then mret tt
  else seconds ← attr sleep_duration; time_sleep seconds.

(** Lines 148-149 without the handler around them. *)
Definition try_block (a : Answers) (last_signal_time : Z) : M (Z * bool) :=
  last_signal_time ← check_and_reload_model a last_signal_time;
  executed ← process_jobs a;
  mret (last_signal_time, executed).

(** One turn of [while True] (lines 147-154); the value is
    [last_signal_time] at the end of the turn.  The assignment of line 148
    has taken place when line 149 raises, and has not when line 148 itself
    raises. *)
Definition iteration (a : Answers) (last_signal_time : Z) : M Z :=
  try_except (check_and_reload_model a last_signal_time)
    (λ last_signal_time',
       try_except (process_jobs a)
         (λ executed, idle_sleep executed;; mret last_signal_time')
         (λ e, log_error e;; idle_sleep false;; mret last_signal_time'))
    (λ e, log_error e;; idle_sleep false;; mret last_signal_time).

(** [fuel] turns of the loop, the [i]-th turn reading [script i].  The
    loop has no normal exit: a [Ret] means that the worker is still running
    after [fuel] turns. *)
Fixpoint main_loop (fuel : nat) (script : nat → Answers) (i : nat)
    (last_signal_time : Z) : M Z :=
  match fuel with
  | O => mret last_signal_time
  | S fuel' =>
      last_signal_time ← iteration (script i) last_signal_time;
      main_loop fuel' script (S i) last_signal_time
  end.

(** ** main and the supervisor *)

(** What the machine answers outside the loop. *)
Record Host : Type := {
  environ : gmap string string;          (* os.environ after load_dotenv() *)
  base_config : nat → Config;            (* BaseConfig.__init__ on config.toml,
                                            per cuda_device_id *)
  initialize_logging_and_args : Config → Config;
  device_count : nat;                    (* torch.cuda.device_count() *)
  check_cuda_answer : outcome unit;      (* 173: check_cuda() *)
  default_models : outcome (list string);(* 143: load_default_model, the
                                            loaded models it leaves *)
  time_loop_start : Z;                   (* 145: time.time() *)
  script : nat → Answers                 (* the turns of the loop *)
}.

(** [load_config(cuda_device_id=...)] followed by
    [initialize_logging_and_args] (lines 135-136 and 167-168), as a
    computation on the config under construction. *)
Definition load_config (h : Host) (cuda_device_id : nat) : M unit :=
  MinerConfig_init (environ h) cuda_device_id;;
  mutate (initialize_logging_and_args h).

(** [main(cuda_device_id)], with [fuel] turns of its loop. *)
Definition main (h : Host) (cuda_device_id : nat) (fuel : nat) : run Z :=
  (load_config h cuda_device_id;;
   emit EvFetchConfigFiles;;
   models ← answer (default_models h);
   mutate (set_loaded_models models);;
   main_loop fuel (script h) 0 (time_loop_start h))
  (base_config h cuda_device_id).

(** [for i in devices: body i]. *)
Fixpoint for_each (body : nat → M unit) (devices : list nat) : M unit :=
  match devices with
  | [] => mret tt
  | i :: rest => body i;; for_each body rest
  end.

(** The block under [if __name__ == "__main__"], lines 167-193, in a run
    that no signal interrupts and in which starting and joining the
    processes, the file synchronisation and the start of the updater do not
    fail.  The handler of lines 158-161 and the [except KeyboardInterrupt]
    of lines 195-199 react to signals, which arrive at any point of the run:
    they are not part of this run. *)
Definition supervisor (h : Host) : run unit :=
  (load_config h 0;;
   n ← attr num_cuda_devices;
   if (device_count h <? n)%nat then
     emit (EvPrint MsgTooManyDevices);;
     raise (SystemExit 1)
   else
     emit EvCheckCuda;;
     answer (check_cuda_answer h);;
     emit EvFetchConfigFiles;;
     emit EvStartUpdater;;
     n ← attr num_cuda_devices;
     for_each (λ i, emit (EvSpawn i)) (seq 0 n);;
     for_each (λ i, emit (EvJoin i)) (seq 0 n))
  (base_config h 0).

(** The exit status of a process whose top level ran [r]. *)
Definition process_status {A} (r : run A) : Z :=
  match result r with
  | Ret _ => 0
  | Raise e => exit_status e
  end.

(** The exit code of a worker process whose target ran [r]. *)
Definition worker_status {A} (r : run A) : Z :=
  match result r with
  | Ret _ => 0
  | Raise e => child_exit_status e
  end.

(** ** Reading runs *)

(** What the signal endpoint answers in a failed check: nothing, or a
    response whose status is not 200. *)
Definition signal_failed (a : Answers) : Prop :=
  signal_response a = Ret None ∨
  ∃ r, signal_response a = Ret (Some r) ∧ status_code r ≠ 200.

(** How a turn that hands over [t] ends when it sleeps under the config
    [c]: with the [ValueError] of [time.sleep] for a negative
    [sleep_duration]. *)
Definition after_sleep (c : Config) (t : Z) : outcome Z :=
  if sleep_duration c <? 0
  then Raise (ValueError "sleep length must be non-negative")
  else Ret t.

(** Kinds of events. *)
Definition is_post (ev : event) : bool :=
  match ev with EvPost _ _ _ => true | _ => false end.
Definition is_reload (ev : event) : bool :=
  match ev with EvReload _ => true | _ => false end.
Definition is_submit (ev : event) : bool :=
  match ev with EvSubmit _ _ _ _ _ => true | _ => false end.
Definition is_sleep (ev : event) : bool :=
  match ev with EvSleep _ => true | _ => false end.
Definition is_spawn (ev : event) : bool :=
  match ev with EvSpawn _ => true | _ => false end.
Definition is_print (ev : event) : bool :=
  match ev with EvPrint _ => true | _ => false end.

(** What lines 72-90 of [send_miner_request] print and log about the
    response. *)
Definition about_response (ev : event) : bool :=
  match ev with
  | EvPrint (MsgWarning _) | EvPrint (MsgProcessing _ _)
  | EvLog ERROR (MsgBadResponseData _) => true
  | _ => false
  end.

(** The events of [send_miner_request]: the heartbeat log, the request,
    and what is printed and logged about the response. *)
Definition of_request (ev : event) : bool :=
  match ev with
  | EvPost _ _ _ | EvLog DEBUG (MsgHeartbeat _ _ _ _) => true
  | _ => about_response ev
  end.

(** The events of [process_jobs] besides those of its request. *)
Definition of_job (ev : event) : bool :=
  match ev with
  | EvLog DEBUG MsgNoModels | EvLog INFO MsgNoJob
  | EvLog INFO (MsgProcessing _ _) | EvSubmit _ _ _ _ _ => true
  | _ => false
  end.

(** The events of [check_and_reload_model]. *)
Definition of_check (ev : event) : bool :=
  match ev with
  | EvPost _ _ _ | EvReload _ | EvLog ERROR (MsgSignalFailed _) => true
  | _ => false
  end.

(** The events of lines 148-149. *)
Definition of_try_block (ev : event) : bool :=
  of_check ev || of_request ev || of_job ev.

(** A call to a collaborator of this turn raises [e]. *)
Definition collaborator_raises (a : Answers) (e : exn) : Prop :=
  signal_response a = Raise e ∨ reload_answer a = Raise e ∨
  job_response a = Raise e ∨ response_data a = Raise e ∨
  submit_answer a = Raise e.

(** [data] is a JSON object with a field [key]. *)
Definition has_field (key : string) (data : pyval) : Prop :=
  ∃ d, data = VDict d ∧ is_Some (d !! key).

(** The events of a trace that satisfy [p], in order. *)
Definition only (p : event → bool) (trace : list event) : list event :=
  List.filter p trace.

(** ** Sample data *)

Module Sample.

Definition config : Config :=
  {| miner_id := "0x123"; base_url := "https://coordinator";
     signal_url := "https://signal"; reload_interval := 600;
     sleep_duration := 5; min_deadline := 3; num_cuda_devices := 1;
     exclude_sdxl := false; version := "1.1.0";
     last_heartbeat := 1000; loaded_models := ["m1"] |}.

Definition ok_response (body : dict) : Response :=
  {| status_code := 200; text := "{}"; resp_json := Some body |}.

Definition job : dict :=
  {[ "job_id" := VStr "j1"; "model_id" := VStr "m1";
     "temp_credentials" := VDict {[ "token" := VStr "t" ]} ]}.

(** A quiet turn at time [t]: the coordinator has no job and
    signals the model that is loaded. *)
Definition idle (t : Z) : Answers :=
  {| time_check := t;
     signal_response := Ret (Some (ok_response {[ "model_id" := VStr "m1" ]}));
     local_ids_check := ["m1"; "m2"];
     reload_answer := Ret ["m1"];
     local_ids := ["m1"; "m2"];
     time_job_start := t + 2;
     submit_answer := Ret tt;
     time_heartbeat_test := t;
     hardware := VStr "gpu";
     time_heartbeat_set := t;
     time_start := t;
     job_response := Ret (Some (ok_response ∅));
     time_end := t + 1;
     response_data := Ret (VDict ∅) |}.

(** The turn [a] with one answer replaced. *)
Definition with_signal_response (v : outcome (option Response)) (a : Answers) : Answers :=
  {| time_check := time_check a;
     signal_response := v;
     local_ids_check := local_ids_check a;
     reload_answer := reload_answer a;
     local_ids := local_ids a;
     time_job_start := time_job_start a;
     submit_answer := submit_answer a;
     time_heartbeat_test := time_heartbeat_test a;
     hardware := hardware a;
     time_heartbeat_set := time_heartbeat_set a;
     time_start := time_start a;
     job_response := job_response a;
     time_end := time_end a;
     response_data := response_data a |}.

Definition with_reload_answer (v : outcome (list string)) (a : Answers) : Answers :=
  {| time_check := time_check a;
     signal_response := signal_response a;
     local_ids_check := local_ids_check a;
     reload_answer := v;
     local_ids := local_ids a;
     time_job_start := time_job_start a;
     submit_answer := submit_answer a;
     time_heartbeat_test := time_heartbeat_test a;
     hardware := hardware a;
     time_heartbeat_set := time_heartbeat_set a;
     time_start := time_start a;
     job_response := job_response a;
     time_end := time_end a;
     response_data := response_data a |}.

Definition with_local_ids (v : list string) (a : Answers) : Answers :=
  {| time_check := time_check a;
     signal_response := signal_response a;
     local_ids_check := local_ids_check a;
     reload_answer := reload_answer a;
     local_ids := v;
     time_job_start := time_job_start a;
     submit_answer := submit_answer a;
     time_heartbeat_test := time_heartbeat_test a;
     hardware := hardware a;
     time_heartbeat_set := time_heartbeat_set a;
     time_start := time_start a;
     job_response := job_response a;
     time_end := time_end a;
     response_data := response_data a |}.

Definition with_submit_answer (v : outcome unit) (a : Answers) : Answers :=
  {| time_check := time_check a;
     signal_response := signal_response a;
     local_ids_check := local_ids_check a;
     reload_answer := reload_answer a;
     local_ids := local_ids a;
     time_job_start := time_job_start a;
     submit_answer := v;
     time_heartbeat_test := time_heartbeat_test a;
     hardware := hardware a;
     time_heartbeat_set := time_heartbeat_set a;
     time_start := time_start a;
     job_response := job_response a;
     time_end := time_end a;
     response_data := response_data a |}.

Definition with_job_response (v : outcome (option Response)) (a : Answers) : Answers :=
  {| time_check := time_check a;
     signal_response := signal_response a;
     local_ids_check := local_ids_check a;
     reload_answer := reload_answer a;
     local_ids := local_ids a;
     time_job_start := time_job_start a;
     submit_answer := submit_answer a;
     time_heartbeat_test := time_heartbeat_test a;
     hardware := hardware a;
     time_heartbeat_set := time_heartbeat_set a;
     time_start := time_start a;
     job_response := v;
     time_end := time_end a;
     response_data := response_data a |}.

Definition with_response_data (v : outcome pyval) (a : Answers) : Answers :=
  {| time_check := time_check a;
     signal_response := signal_response a;
     local_ids_check := local_ids_check a;
     reload_answer := reload_answer a;
     local_ids := local_ids a;
     time_job_start := time_job_start a;
     submit_answer := submit_answer a;
     time_heartbeat_test := time_heartbeat_test a;
     hardware := hardware a;
     time_heartbeat_set := time_heartbeat_set a;
     time_start := time_start a;
     job_response := job_response a;
     time_end := time_end a;
     response_data := v |}.

Definition with_data (data : pyval) : Answers → Answers :=
  with_response_data (Ret data).

(** Scenario C of the spec: the interval has elapsed since the last
    check at 1000 and the coordinator signals [m2], stored locally and
    not loaded. *)
Definition swap_to_m2 : Answers :=
  with_signal_response (Ret (Some (ok_response {[ "model_id" := VStr "m2" ]})))
    (with_reload_answer (Ret ["m2"]) (idle 1700)).

(** The signal endpoint does not answer. *)
Definition signal_down : Answers := with_signal_response (Ret None) (idle 1700).

(** A config whose [sleep_duration] is negative. *)
Definition negative_sleep : Config :=
  {| miner_id := "0x123"; base_url := "https://coordinator";
     signal_url := "https://signal"; reload_interval := 600;
     sleep_duration := -1; min_deadline := 3; num_cuda_devices := 1;
     exclude_sdxl := false; version := "1.1.0";
     last_heartbeat := 1000; loaded_models := ["m1"] |}.

(** Three devices, the id of the second set and empty. *)
Definition three_devices : Config :=
  {| miner_id := ""; base_url := "https://coordinator";
     signal_url := "https://signal"; reload_interval := 600;
     sleep_duration := 5; min_deadline := 3; num_cuda_devices := 3;
     exclude_sdxl := false; version := "1.1.0";
     last_heartbeat := 0; loaded_models := [] |}.

Definition environ_three : gmap string string :=
  {[ "MINER_ID_0" := "0xA"; "MINER_ID_1" := ""; "MINER_ID_2" := "0xB" ]}.

(** Two devices; the config as [BaseConfig.__init__] leaves it. *)
Definition two_devices : Config :=
  {| miner_id := ""; base_url := "https://coordinator";
     signal_url := "https://signal"; reload_interval := 600;
     sleep_duration := 5; min_deadline := 3; num_cuda_devices := 2;
     exclude_sdxl := false; version := "1.1.0";
     last_heartbeat := 0; loaded_models := [] |}.

Definition environ_two : gmap string string :=
  {[ "MINER_ID_0" := "0xA"; "MINER_ID_1" := "0xB" ]}.

(** [MINER_ID_1=] in the .env file: set, and empty. *)
Definition environ_empty_id : gmap string string :=
  {[ "MINER_ID_0" := "0xA"; "MINER_ID_1" := "" ]}.

(** A machine with [available] devices, configured for two. *)
Definition host (available : nat) : Host :=
  {| environ := environ_two;
     base_config := λ _, two_devices;
     initialize_logging_and_args := λ c, c;
     device_count := available;
     check_cuda_answer := Ret tt;
     default_models := Ret ["m1"];
     time_loop_start := 1000;
     script := λ _, idle 1010 |}.

End Sample.

(** ** Tactics to run the monad *)

(** Unfolds the operations of [M] in the goal. *)
Ltac run_monad :=
  cbv [mbind mret M_bind M_ret bind_M ret_M raise emit attr mutate answer try_except
       time_sleep];
  cbn [result final emitted app].

(** Case analysis on the innermost scrutinee left in the goal, until the
    run is a constructor. *)
Ltac split_run :=
  repeat match goal with
  | |- context [match ?x with _ => _ end] =>
      lazymatch x with
      | context [match _ with _ => _ end] => fail
      | _ => destruct x eqn:?; cbn [result final emitted app] in *
      end
  end.

(** The string of [n] characters [ch]. *)
Definition run_of (ch : Ascii.ascii) (n : nat) : string :=
  String.string_of_list_ascii (List.repeat ch n).

(** The attributes that only the config file and the constructor set. *)
Definition same_settings (c c' : Config) : Prop :=
  miner_id c' = miner_id c ∧ base_url c' = base_url c ∧
  signal_url c' = signal_url c ∧ reload_interval c' = reload_interval c ∧
  sleep_duration c' = sleep_duration c ∧ min_deadline c' = min_deadline c ∧
  num_cuda_devices c' = num_cuda_devices c ∧ exclude_sdxl c' = exclude_sdxl c ∧
  version c' = version c.

(** A request of the worker configured by [c]: posted to the signal
    endpoint or to the job endpoint, in the name of the miner of [c]. *)
Definition worker_request (c : Config) (ev : event) : Prop :=
  ∃ url body,
    ev = EvPost url body (miner_id c) ∧
    body !! "miner_id" = Some (VStr (miner_id c)) ∧
    (url = signal_url c +:+ "/miner_signal" ∨ url = base_url c +:+ "/miner_request").

(** * Properties *)

(** ** Strings *)

Example split_1_warning :
  Str.split_1 "Warning:" "{msg: Warning: slow down}" = Some " slow down}".
Proof. reflexivity. Qed.

Example split_1_twice : Str.split_1 "ab" "xabyabz" = Some "y".
Proof. reflexivity. Qed.

Example strip_quotes :
  Str.strip (Ascii.ascii_of_nat 113) "qqhelqloqq" = "helqlo".
Proof. reflexivity. Qed.

(** ** Values and responses *)

Lemma member_of_true (v : pyval) (ids : list string) :
  member_of v ids = true ↔ ∃ s, v = VStr s ∧ s ∈ ids.
Proof.
  destruct v; cbn; split; try discriminate; try (intros (s' & [=] & _); fail).
  - intros H. apply bool_decide_eq_true in H. eauto.
  - intros (s' & [= <-] & H). by apply bool_decide_eq_true.
Qed.

Lemma member_of_false (s : string) (ids : list string) :
  member_of (VStr s) ids = false ↔ s ∉ ids.
Proof. cbn. apply bool_decide_eq_false. Qed.

Lemma is_200_Some (response : option Response) (r : Response) :
  is_200 response = Some r ↔ response = Some r ∧ status_code r = 200.
Proof.
  unfold is_200, response_ok. destruct response as [r'|]; [|naive_solver].
  destruct (status_code r' =? 200) eqn:E.
  - apply Z.eqb_eq in E. rewrite E. cbn. naive_solver.
  - apply Z.eqb_neq in E. rewrite andb_false_r. naive_solver.
Qed.

Lemma is_200_None (response : option Response) :
  is_200 response = None ↔
  response = None ∨ ∃ r, response = Some r ∧ status_code r ≠ 200.
Proof.
  unfold is_200, response_ok. destruct response as [r'|]; [|naive_solver].
  destruct (status_code r' =? 200) eqn:E.
  - apply Z.eqb_eq in E. rewrite E. cbn. naive_solver.
  - apply Z.eqb_neq in E. rewrite andb_false_r. naive_solver.
Qed.

(** ** The reload check *)

(** A throttled check does nothing and keeps the time of the last check. *)
Lemma check_and_reload_model_throttled (a : Answers) (last_signal_time : Z) (c : Config) :
  time_check a - last_signal_time < reload_interval c →
  check_and_reload_model a last_signal_time c = Run (Ret last_signal_time) c [].
Proof.
  intros H. unfold check_and_reload_model. run_monad.
  destruct (Z.leb_spec (reload_interval c) (time_check a - last_signal_time)); [lia|].
  destruct (Z.ltb_spec (time_check a - last_signal_time) (reload_interval c)); [done|lia].
Qed.

(** C3. The request to the signal endpoint is issued only when the time
    elapsed since the last check is at least [reload_interval], and
    [reload_model] is called only with the model id that a 200 response
    signals, when that id is in the local storage and is not among the
    loaded models. *)
Theorem check_and_reload_model_guards (a : Answers) (last_signal_time : Z) (c : Config) :
  let r := check_and_reload_model a last_signal_time c in
  (only is_post (emitted r) ≠ [] →
     reload_interval c ≤ time_check a - last_signal_time) ∧
  (∀ m, In (EvReload m) (emitted r) →
     reload_interval c ≤ time_check a - last_signal_time ∧
     (∃ resp body, signal_response a = Ret (Some resp) ∧ status_code resp = 200 ∧
                   resp_json resp = Some body ∧ m = py_get body "model_id") ∧
     ∃ s, m = VStr s ∧ s ∈ local_ids_check a ∧ s ∉ loaded_models c).
Proof.
  unfold check_and_reload_model, post_request, reload_model, json.
  run_monad.
  destruct (reload_interval c <=? time_check a - last_signal_time) eqn:He.
  - apply Z.leb_le in He. split_run.
    all: split; [done|].
    all: cbn; intros m Hm; destruct_or?; try discriminate; try done.
    all: injection Hm as <-.
    all: match goal with H : is_200 _ = Some _ |- _ => apply is_200_Some in H as [-> ?] end.
    all: match goal with H : _ && _ = true |- _ => apply andb_true_iff in H as [Hl Hn] end.
    all: apply member_of_true in Hl as (s & Hs & Hin).
    all: rewrite Hs in Hn; apply negb_true_iff, member_of_false in Hn.
    all: split_and!; [done | by exists r, g | by exists s].
  - cbn. split; [done|]. intros m [].
Qed.

Lemma check_and_reload_model_guards_witness :
  reload_interval Sample.config ≤ time_check Sample.swap_to_m2 - 1000 ∧
  ∃ s, VStr "m2" = VStr s ∧ s ∈ local_ids_check Sample.swap_to_m2
       ∧ s ∉ loaded_models Sample.config.
Proof.
  destruct (check_and_reload_model_guards Sample.swap_to_m2 1000 Sample.config) as [Hpost Hreload].
  split.
  - apply Hpost. vm_compute. discriminate.
  - apply (Hreload (VStr "m2")). vm_compute. right. left. reflexivity.
Defined.

Example scenario_C :
  let r := check_and_reload_model Sample.swap_to_m2 1000 Sample.config in
  result r = Ret 1700 ∧ loaded_models (final r) = ["m2"] ∧
  only is_reload (emitted r) = [EvReload (VStr "m2")].
Proof. vm_compute. done. Qed.

(** C2, as stated, fails: after a failed check that was due, the returned
    time is not the time passed in. *)
Lemma failed_check_keeps_time_counterexample :
  reload_interval Sample.config ≤ time_check Sample.signal_down - 1000 ∧
  signal_failed Sample.signal_down ∧
  result (check_and_reload_model Sample.signal_down 1000 Sample.config) ≠ Ret 1000.
Proof.
  split; [vm_compute; discriminate|]. split; [by left|].
  vm_compute. discriminate.
Qed.

(** C2, amended. When the check is due and the signal endpoint answers
    nothing or a status other than 200, the failure is logged, no model is
    reloaded and the config is left as it was, and the returned time is the
    current time: the failed check opens a new window. *)
Theorem failed_check_resets_window (a : Answers) (last_signal_time : Z) (c : Config) :
  reload_interval c ≤ time_check a - last_signal_time →
  signal_failed a →
  check_and_reload_model a last_signal_time c =
    Run (Ret (time_check a)) c
      [EvPost (signal_url c +:+ "/miner_signal")
         {[ "miner_id" := VStr (miner_id c);
            "options" := VDict {[ "exclude_sdxl" := VBool (exclude_sdxl c) ]} ]}
         (miner_id c);
       EvLog ERROR (MsgSignalFailed (miner_id c))].
Proof.
  intros Hdue Hfail.
  assert (∃ resp, signal_response a = Ret resp ∧ is_200 resp = None) as (resp & Hresp & Hno).
  { destruct Hfail as [H | (r & H & Hr)]; eexists; (split; [exact H|]);
      apply is_200_None; eauto. }
  unfold check_and_reload_model, post_request. run_monad.
  destruct (Z.leb_spec (reload_interval c) (time_check a - last_signal_time)); [|lia].
  rewrite Hresp, Hno. cbn.
  destruct (Z.ltb_spec (time_check a - last_signal_time) (reload_interval c)); [lia|done].
Qed.

Lemma failed_check_resets_window_witness :
  check_and_reload_model Sample.signal_down 1000 Sample.config =
    Run (Ret 1700) Sample.config
      [EvPost "https://signal/miner_signal"
         {[ "miner_id" := VStr "0x123";
            "options" := VDict {[ "exclude_sdxl" := VBool false ]} ]}
         "0x123";
       EvLog ERROR (MsgSignalFailed "0x123")].
Proof.
  apply (failed_check_resets_window Sample.signal_down 1000 Sample.config).
  - vm_compute. discriminate.
  - left. reflexivity.
Defined.

(** ** The job request and its heartbeat *)

Lemma only_app (p : event → bool) (evs1 evs2 : list event) :
  only p (evs1 ++ evs2) = only p evs1 ++ only p evs2.
Proof. apply List.filter_app. Qed.

(** A trace of events of kind [q] holds no event of a disjoint kind [p]. *)
Lemma only_disjoint (p q : event → bool) (evs : list event) :
  (∀ ev, q ev = true → p ev = false) →
  Forall (λ ev, q ev = true) evs →
  only p evs = [].
Proof.
  intros Hp. induction 1 as [|ev evs Hev _ IH]; [done|].
  cbn. by rewrite (Hp ev Hev).
Qed.

Lemma contains_split_1 (sep s : string) :
  Str.contains sep s = true → is_Some (Str.split_1 sep s).
Proof.
  unfold Str.contains, Str.split_1, Str.after_first.
  destruct (String.index 0 sep s); [eauto|discriminate].
Qed.

(** The warning of the coordinator is printed or not; nothing else happens. *)
Lemma surface_warning_run (response : option Response) (c : Config) :
  ∃ evs, surface_warning response c = Run (Ret tt) c evs ∧
         Forall (λ ev, about_response ev = true) evs.
Proof.
  unfold surface_warning. destruct response as [r|]; [|by eexists].
  destruct (response_ok r && Str.contains "Warning:" (text r)) eqn:E; [|by eexists].
  apply andb_true_iff in E as [_ E]. apply contains_split_1 in E as [piece ->].
  eexists. split; [reflexivity|]. by repeat constructor.
Qed.

(** The friendly message is printed, or the test of line 83 raises;
    the config is not touched. *)
Lemma announce_job_run (data : pyval) (c : Config) :
  ∃ o evs, announce_job data c = Run o c evs ∧
           Forall (λ ev, about_response ev = true) evs ∧
           ∀ e, o = Raise e → is_Exception e = true.
Proof.
  unfold announce_job, py_contains, py_getitem. run_monad.
  destruct data; split_run.
  all: do 2 eexists; split_and!; [reflexivity|by repeat constructor|].
  all: by intros ? [= <-].
Qed.

(** Lines 72-90, what follows the request: prints and logs only. *)
Lemma send_miner_request_run (a : Answers) (model_id : pyval) (deadline : Z) (c : Config) :
  let stale := 60 <=? time_heartbeat_test a - last_heartbeat c in
  let body : dict :=
    if stale
    then <["version" := VStr (version c)]> (<["hardware" := hardware a]>
           {[ "miner_id" := VStr (miner_id c); "model_id" := model_id;
              "min_deadline" := VInt deadline ]})
    else {[ "miner_id" := VStr (miner_id c); "model_id" := model_id;
            "min_deadline" := VInt deadline ]} in
  ∃ o rest,
    send_miner_request a model_id deadline c =
      Run o (if stale then set_last_heartbeat (time_heartbeat_set a) c else c)
        ((if stale
          then [EvLog DEBUG (MsgHeartbeat (time_heartbeat_set a) (hardware a)
                                          (version c) (miner_id c))]
          else [])
         ++ EvPost (base_url c +:+ "/miner_request") body (miner_id c) :: rest) ∧
    Forall (λ ev, about_response ev = true) rest ∧
    match o with
    | Ret (data, latency) =>
        response_data a = Ret data ∧ latency = time_end a - time_start a ∧
        ∃ resp, job_response a = Ret resp
    | Raise e => job_response a = Raise e ∨ response_data a = Raise e
    end.
Proof.
  cbn zeta. unfold send_miner_request, post_request. run_monad.
  destruct (60 <=? time_heartbeat_test a - last_heartbeat c); cbn.
  all: destruct (job_response a) as [resp|e]; cbn;
    [|by do 2 eexists; split_and!; [reflexivity|constructor|left]].
  all: match goal with |- context [surface_warning ?x ?c'] =>
         destruct (surface_warning_run x c') as (evs & -> & Hevs) end.
  all: destruct (response_data a) as [data|e]; cbn;
    [|by do 2 eexists; split_and!; [reflexivity|rewrite app_nil_r|right]].
  all: match goal with |- context [announce_job ?x ?c'] =>
         destruct (announce_job_run x c') as ([[]|e] & evs' & -> & Hevs' & He) end.
  all: try rewrite (He e eq_refl); cbn.
  all: do 2 eexists; split_and!; [reflexivity| |].
  all: rewrite ?app_nil_r; repeat apply Forall_app_2; eauto.
  all: cbn; eauto.
Qed.

(** C4. The hardware and version fields are in the body of the request
    exactly when at least 60 seconds separate the clock from
    [last_heartbeat]; in that case, and only then, [last_heartbeat] is set,
    once, to the clock read at line 64, before the request leaves, whatever
    the request then answers or raises; nothing else in the config
    changes. *)
Theorem send_miner_request_heartbeat (a : Answers) (model_id : pyval) (deadline : Z)
    (c : Config) :
  let r := send_miner_request a model_id deadline c in
  let stale := bool_decide (60 ≤ time_heartbeat_test a - last_heartbeat c) in
  ∃ body rest,
    emitted r =
      (if stale
       then [EvLog DEBUG (MsgHeartbeat (time_heartbeat_set a) (hardware a)
                                       (version c) (miner_id c))]
       else [])
      ++ EvPost (base_url c +:+ "/miner_request") body (miner_id c) :: rest ∧
    only is_post rest = [] ∧
    body !! "hardware" = (if stale then Some (hardware a) else None) ∧
    body !! "version" = (if stale then Some (VStr (version c)) else None) ∧
    last_heartbeat (final r) =
      (if stale then time_heartbeat_set a else last_heartbeat c) ∧
    final r = (if stale then set_last_heartbeat (time_heartbeat_set a) c else c).
Proof.
  cbn zeta.
  destruct (send_miner_request_run a model_id deadline c) as (o & rest & -> & Hrest & _).
  cbn [emitted final].
  assert ((60 <=? time_heartbeat_test a - last_heartbeat c) =
          bool_decide (60 ≤ time_heartbeat_test a - last_heartbeat c)) as ->.
  { case_bool_decide; [by apply Z.leb_le|by apply Z.leb_gt; lia]. }
  do 2 eexists.
  split_and!; [reflexivity|by apply (only_disjoint _ about_response); [intros []|]| | | |done].
  - case_bool_decide; by simplify_map_eq.
  - case_bool_decide; by simplify_map_eq.
  - by case_bool_decide.
Qed.

Lemma send_miner_request_heartbeat_witness :
  let r := send_miner_request (Sample.idle 1100) (VStr "m1") 3 Sample.config in
  ∃ body rest,
    emitted r =
      [EvLog DEBUG (MsgHeartbeat 1100 (VStr "gpu") "1.1.0" "0x123")]
      ++ EvPost "https://coordinator/miner_request" body "0x123" :: rest ∧
    body !! "hardware" = Some (VStr "gpu") ∧
    body !! "version" = Some (VStr "1.1.0") ∧
    last_heartbeat (final r) = 1100.
Proof.
  destruct (send_miner_request_heartbeat (Sample.idle 1100) (VStr "m1") 3 Sample.config)
    as (body & rest & Hevents & _ & Hhardware & Hversion & Hclock & _).
  exists body, rest. split_and!.
  - exact Hevents.
  - exact Hhardware.
  - exact Hversion.
  - exact Hclock.
Defined.


(** ** Processing one job *)

(** With no model in the local storage the worker leaves with status 0
    before any request. *)
Lemma process_jobs_no_models (a : Answers) (c : Config) :
  local_ids a = [] →
  process_jobs a c = Run (Raise (SystemExit 0)) c [EvLog DEBUG MsgNoModels].
Proof. intros H. unfold process_jobs. run_monad. by rewrite H. Qed.

(** Lines 123-130, once the request has returned [job]. *)
Lemma process_jobs_after_request (a : Answers) (c c1 : Config) (job : pyval)
    (latency : Z) (evs : list event) :
  local_ids a ≠ [] →
  send_miner_request a (first_or_None (loaded_models c)) (min_deadline c) c =
    Run (Ret (job, latency)) c1 evs →
  process_jobs a c =
    if truthy job then
      match py_getitem job "job_id", py_getitem job "model_id",
            py_getitem job "temp_credentials" with
      | Ret job_id, Ret model_id, Ret credentials =>
          Run (match submit_answer a with Ret _ => Ret true | Raise e => Raise e end)
              c1
              (evs ++ [EvLog INFO (MsgProcessing job_id model_id);
                       EvSubmit (miner_id c1) job credentials (time_job_start a) latency])
      | Ret job_id, Ret model_id, Raise e =>
          Run (Raise e) c1 (evs ++ [EvLog INFO (MsgProcessing job_id model_id)])
      | Ret _, Raise e, _ | Raise e, _, _ => Run (Raise e) c1 evs
      end
    else Run (Ret false) c1 (evs ++ [EvLog INFO MsgNoJob]).
Proof.
  intros Hids Hsend. unfold process_jobs. run_monad.
  destruct (local_ids a) as [|id ids]; [done|].
  rewrite Hsend. cbn.
  destruct (truthy job); [|done].
  destruct (py_getitem job "job_id"); cbn; [|by rewrite app_nil_r].
  destruct (py_getitem job "model_id"); cbn; [|by rewrite app_nil_r].
  destruct (py_getitem job "temp_credentials"); cbn; [|done].
  by destruct (submit_answer a) as [[]|].
Qed.

(** A request that raises ends [process_jobs]. *)
Lemma process_jobs_request_raises (a : Answers) (c c1 : Config) (e : exn)
    (evs : list event) :
  local_ids a ≠ [] →
  send_miner_request a (first_or_None (loaded_models c)) (min_deadline c) c =
    Run (Raise e) c1 evs →
  process_jobs a c = Run (Raise e) c1 evs.
Proof.
  intros Hids Hsend. unfold process_jobs. run_monad.
  destruct (local_ids a) as [|id ids]; [done|].
  by rewrite Hsend.
Qed.

Lemma send_miner_request_events (a : Answers) (model_id : pyval) (deadline : Z)
    (c : Config) :
  Forall (λ ev, of_request ev = true)
         (emitted (send_miner_request a model_id deadline c)).
Proof.
  destruct (send_miner_request_run a model_id deadline c) as (o & rest & -> & Hrest & _).
  cbn [emitted]. apply Forall_app_2; [by case_match; repeat constructor|].
  constructor; [done|].
  eapply Forall_impl; [exact Hrest|]. intros ev Hev. unfold of_request.
  by destruct ev as [[]|[] []| | | | | | | | |].
Qed.

Lemma py_getitem_Ret (data : pyval) (key : string) (v : pyval) :
  py_getitem data key = Ret v ↔ ∃ d, data = VDict d ∧ d !! key = Some v.
Proof.
  destruct data; cbn; try (split; [discriminate|by intros (? & [=] & _)]).
  destruct (d !! key) eqn:E; split.
  - intros [= <-]. eauto.
  - intros (d' & [= <-] & Hd). congruence.
  - discriminate.
  - intros (d' & [= <-] & Hd). congruence.
Qed.

Lemma has_field_getitem (key : string) (data : pyval) :
  has_field key data ↔ ∃ v, py_getitem data key = Ret v.
Proof.
  unfold has_field. split.
  - intros (d & -> & v & Hv). exists v. apply py_getitem_Ret. eauto.
  - intros (v & Hv). apply py_getitem_Ret in Hv as (d & -> & Hd). eauto.
Qed.

(** An object with a field is not empty. *)
Lemma has_field_truthy (key : string) (data : pyval) :
  has_field key data → truthy data = true.
Proof.
  intros (d & -> & v & Hv). cbn. apply negb_true_iff, bool_decide_eq_false.
  intros ->. by rewrite lookup_empty in Hv.
Qed.

(** C1, as stated, fails in both directions: a response that is not empty
    and has no [job_id] makes [process_jobs] raise, so that it neither
    reports an idle turn nor returns; and a response with [job_id] and
    [model_id] but no [temp_credentials] is not submitted. *)
Lemma job_iff_fields_counterexample :
  let no_work := VDict {[ "message" := VStr "no work" ]} in
  let no_credentials := VDict {[ "job_id" := VStr "j1"; "model_id" := VStr "m1" ]} in
  let r1 := process_jobs (Sample.with_data no_work (Sample.idle 1010)) Sample.config in
  let r2 := process_jobs (Sample.with_data no_credentials (Sample.idle 1010)) Sample.config in
  (¬ has_field "job_id" no_work ∧ ¬ has_field "model_id" no_work ∧
   result r1 = Raise (KeyError "job_id") ∧
   ¬ In (EvLog INFO MsgNoJob) (emitted r1)) ∧
  (has_field "job_id" no_credentials ∧ has_field "model_id" no_credentials ∧
   result r2 = Raise (KeyError "temp_credentials") ∧
   only is_submit (emitted r2) = []).
Proof.
  cbn zeta. split; split_and!.
  - intros (d & [= <-] & v & Hv). vm_compute in Hv. discriminate.
  - intros (d & [= <-] & v & Hv). vm_compute in Hv. discriminate.
  - vm_compute. reflexivity.
  - intros H. vm_compute in H. destruct_or?; done.
  - eexists. split; [reflexivity|]. vm_compute. eauto.
  - eexists. split; [reflexivity|]. vm_compute. eauto.
  - vm_compute. reflexivity.
  - vm_compute. reflexivity.
Qed.

(** No event of [send_miner_request] is of a kind [p] disjoint from the
    kinds it produces. *)
Lemma send_miner_request_only (p : event → bool) (a : Answers) (model_id : pyval)
    (deadline : Z) (c : Config) :
  (∀ ev, of_request ev = true → p ev = false) →
  only p (emitted (send_miner_request a model_id deadline c)) = [].
Proof.
  intros Hp. eapply only_disjoint; [exact Hp|]. apply send_miner_request_events.
Qed.

Lemma send_miner_request_not_In (ev : event) (a : Answers) (model_id : pyval)
    (deadline : Z) (c : Config) :
  of_request ev = false →
  ¬ In ev (emitted (send_miner_request a model_id deadline c)).
Proof.
  intros Hev Hin.
  pose proof (send_miner_request_events a model_id deadline c) as Hall.
  rewrite Forall_forall in Hall. apply list_elem_of_In, Hall in Hin. congruence.
Qed.

(** An answered request returns the answer of [log_response]. *)
Lemma send_miner_request_answered (a : Answers) (model_id : pyval) (deadline : Z)
    (c : Config) (resp : option Response) (data : pyval) :
  job_response a = Ret resp →
  response_data a = Ret data →
  ∃ latency, result (send_miner_request a model_id deadline c) = Ret (data, latency).
Proof.
  intros Hresp Hdata.
  destruct (send_miner_request_run a model_id deadline c) as (o & rest & -> & _ & Ho).
  cbn [result]. destruct o as [[data' latency]|e].
  - destruct Ho as (Hd & _). exists latency. congruence.
  - destruct Ho; congruence.
Qed.

(** C1, amended.  In a turn whose request is answered, [process_jobs]
    reports an idle turn and returns [False] exactly when the response data
    is falsy ([None] or empty), and then submits nothing.  The result of a
    job is submitted exactly when the data carries [job_id], [model_id] and
    [temp_credentials], and [process_jobs] returns [True] exactly when that
    submission returns. *)
Theorem job_iff_truthy (a : Answers) (c : Config) (resp : option Response)
    (data : pyval) :
  local_ids a ≠ [] →
  job_response a = Ret resp →
  response_data a = Ret data →
  let r := process_jobs a c in
  (truthy data = false ↔ result r = Ret false) ∧
  (truthy data = false ↔ In (EvLog INFO MsgNoJob) (emitted r)) ∧
  (only is_submit (emitted r) ≠ [] ↔
     has_field "job_id" data ∧ has_field "model_id" data ∧
     has_field "temp_credentials" data) ∧
  (result r = Ret true ↔
     only is_submit (emitted r) ≠ [] ∧ submit_answer a = Ret tt).
Proof.
  intros Hids Hresp Hdata. cbn zeta.
  set (model := first_or_None (loaded_models c)).
  destruct (send_miner_request_answered a model (min_deadline c) c resp data Hresp Hdata)
    as [latency Hres].
  pose proof (send_miner_request_only is_submit a model (min_deadline c) c) as Hsub.
  pose proof (send_miner_request_not_In (EvLog INFO MsgNoJob) a model (min_deadline c) c eq_refl)
    as Hidle.
  destruct (send_miner_request a model (min_deadline c) c) as [o c1 evs] eqn:Hsend.
  cbn [result emitted] in *. subst o.
  rewrite (process_jobs_after_request a c c1 data latency evs Hids Hsend).
  rewrite !has_field_getitem.
  assert (only is_submit evs = []) as Hnone by (apply Hsub; by intros [[]|[] []| | | | | | | | |]).
  destruct (truthy data) eqn:Htruthy.
  - destruct (py_getitem data "job_id") as [job_id|e1];
      [destruct (py_getitem data "model_id") as [model_id|e2];
       [destruct (py_getitem data "temp_credentials") as [credentials|e3]|]|];
      cbn [result emitted]; rewrite ?only_app, ?Hnone; cbn.
    all: rewrite ?in_app_iff; cbn.
    all: split_and!; split; try done; try naive_solver.
    all: destruct (submit_answer a) as [[]|]; naive_solver.
  - cbn [result emitted]. rewrite only_app, Hnone, in_app_iff. cbn.
    split_and!; split; try done; try naive_solver.
    intros (Hj & _). destruct Hj as [v Hv].
    apply py_getitem_Ret in Hv as (d & -> & Hd).
    cbn in Htruthy. apply negb_false_iff, bool_decide_eq_true in Htruthy.
    subst d. by rewrite lookup_empty in Hd.
Qed.

Lemma job_iff_truthy_witness :
  let r := process_jobs (Sample.with_data (VDict Sample.job) (Sample.idle 1010))
             Sample.config in
  result r = Ret true ↔ only is_submit (emitted r) ≠ [] ∧ Ret tt = Ret tt.
Proof.
  refine (proj2 (proj2 (proj2
    (job_iff_truthy (Sample.with_data (VDict Sample.job) (Sample.idle 1010))
       Sample.config (Some (Sample.ok_response ∅)) (VDict Sample.job) _ _ _)))).
  - vm_compute. discriminate.
  - reflexivity.
  - reflexivity.
Defined.

Lemma only_cons_true (p : event → bool) (ev : event) (evs : list event) :
  p ev = true → only p (ev :: evs) = ev :: only p evs.
Proof. intros H. unfold only. cbn. by rewrite H. Qed.

Lemma only_cons_false (p : event → bool) (ev : event) (evs : list event) :
  p ev = false → only p (ev :: evs) = only p evs.
Proof. intros H. unfold only. cbn. by rewrite H. Qed.

(** [process_jobs] runs its request and then only logs and submits; the
    config is left as the request left it. *)
Lemma process_jobs_shape (a : Answers) (c : Config) :
  local_ids a ≠ [] →
  let request :=
    send_miner_request a (first_or_None (loaded_models c)) (min_deadline c) c in
  ∃ tail,
    emitted (process_jobs a c) = emitted request ++ tail ∧
    final (process_jobs a c) = final request ∧
    Forall (λ ev, of_job ev = true) tail.
Proof.
  intros Hids. cbn zeta.
  destruct (send_miner_request a (first_or_None (loaded_models c)) (min_deadline c) c)
    as [[[job latency]|e] c1 evs] eqn:Hsend.
  - rewrite (process_jobs_after_request a c c1 job latency evs Hids Hsend).
    cbn [emitted final].
    destruct (truthy job); [|by eexists; split_and!; [done..|repeat constructor]].
    destruct (py_getitem job "job_id"); [|by exists []; rewrite app_nil_r].
    destruct (py_getitem job "model_id"); [|by exists []; rewrite app_nil_r].
    destruct (py_getitem job "temp_credentials").
    all: by eexists; split_and!; [done..|repeat constructor].
  - rewrite (process_jobs_request_raises a c c1 e evs Hids Hsend).
    exists []. by rewrite app_nil_r.
Qed.

(** Where an exception of [process_jobs] comes from: the exit for an empty
    local storage, a collaborator, or a field read from the job. *)
Lemma process_jobs_raises (a : Answers) (c : Config) (e : exn) :
  result (process_jobs a c) = Raise e →
  (e = SystemExit 0 ∧ local_ids a = []) ∨
  (job_response a = Raise e ∨ response_data a = Raise e ∨ submit_answer a = Raise e) ∨
  (∃ data key, response_data a = Ret data ∧ truthy data = true ∧
               py_getitem data key = Raise e).
Proof.
  destruct (decide (local_ids a = [])) as [Hids|Hids].
  { rewrite (process_jobs_no_models a c Hids). intros [= <-]. by left. }
  set (model := first_or_None (loaded_models c)).
  destruct (send_miner_request_run a model (min_deadline c) c) as (o & rest & Hsend & _ & Ho).
  destruct o as [[job latency]|e'].
  - rewrite (process_jobs_after_request a c _ job latency _ Hids Hsend).
    destruct Ho as (Hdata & _ & _).
    destruct (truthy job) eqn:Htruthy; [|discriminate].
    destruct (py_getitem job "job_id") eqn:E1;
      [|intros [= <-]; right; right; eauto].
    destruct (py_getitem job "model_id") eqn:E2;
      [|intros [= <-]; right; right; eauto].
    destruct (py_getitem job "temp_credentials") eqn:E3;
      [|intros [= <-]; right; right; eauto].
    cbn. destruct (submit_answer a); [discriminate|]. intros [= <-]. eauto.
  - rewrite (process_jobs_request_raises a c _ e' _ Hids Hsend).
    intros [= <-]. destruct Ho; eauto.
Qed.

(** A field read raises a [KeyError] or a [TypeError]. *)
Lemma py_getitem_Raise (data : pyval) (key : string) (e : exn) :
  py_getitem data key = Raise e → is_Exception e = true.
Proof. destruct data; cbn; try by intros [= <-]. case_match; by intros [= <-]. Qed.

(** C10. With an empty set of loaded models and a local storage that is
    not empty, [process_jobs] selects [None] and sends its one request with
    [model_id] equal to [None]; nothing checks that a model is active: an
    exception, if any, comes from a collaborator or from a field of the job,
    and an answered request without job returns [False]. *)
Theorem process_jobs_without_loaded_model (a : Answers) (c : Config) :
  loaded_models c = [] →
  local_ids a ≠ [] →
  let r := process_jobs a c in
  first_or_None (loaded_models c) = VNone ∧
  (∃ body, only is_post (emitted r) =
             [EvPost (base_url c +:+ "/miner_request") body (miner_id c)] ∧
           body !! "model_id" = Some VNone) ∧
  (∀ e, result r = Raise e →
     (job_response a = Raise e ∨ response_data a = Raise e ∨ submit_answer a = Raise e) ∨
     (∃ data key, response_data a = Ret data ∧ truthy data = true ∧
                  py_getitem data key = Raise e)) ∧
  (∀ resp data, job_response a = Ret resp → response_data a = Ret data →
     truthy data = false → result r = Ret false).
Proof.
  intros Hloaded Hids. cbn zeta. split_and!.
  - by rewrite Hloaded.
  - destruct (process_jobs_shape a c Hids) as (tail & -> & _ & Htail).
    destruct (send_miner_request_run a (first_or_None (loaded_models c)) (min_deadline c) c)
      as (o & rest & -> & Hrest & _).
    cbn [emitted]. rewrite !only_app, (only_cons_true is_post) by done.
    rewrite (only_disjoint is_post about_response rest); [|by intros []|done].
    rewrite (only_disjoint is_post of_job tail); [|by intros [|[] []| | | | | | | | |]|done].
    rewrite Hloaded.
    destruct (60 <=? time_heartbeat_test a - last_heartbeat c);
      (eexists; split; [reflexivity|by simplify_map_eq]).
  - intros e He. destruct (process_jobs_raises a c e He) as [[_ ?]|?]; done.
  - intros resp data Hresp Hdata Htruthy.
    destruct (send_miner_request_answered a (first_or_None (loaded_models c))
                (min_deadline c) c resp data Hresp Hdata) as [latency Hres].
    destruct (send_miner_request a (first_or_None (loaded_models c)) (min_deadline c) c)
      as [o c1 evs] eqn:Hsend.
    cbn in Hres. subst o.
    rewrite (process_jobs_after_request a c c1 data latency evs Hids Hsend).
    by rewrite Htruthy.
Qed.

Lemma process_jobs_without_loaded_model_witness :
  result (process_jobs (Sample.idle 1010) (set_loaded_models [] Sample.config)) = Ret false.
Proof.
  destruct (process_jobs_without_loaded_model (Sample.idle 1010)
              (set_loaded_models [] Sample.config)) as (_ & _ & _ & Hidle).
  - reflexivity.
  - vm_compute. discriminate.
  - apply (Hidle (Some (Sample.ok_response ∅)) (VDict ∅)); reflexivity.
Defined.

(** ** The loop *)

Lemma check_and_reload_model_events (a : Answers) (last_signal_time : Z) (c : Config) :
  Forall (λ ev, of_check ev = true)
         (emitted (check_and_reload_model a last_signal_time c)).
Proof.
  unfold check_and_reload_model, post_request, reload_model, json. run_monad.
  split_run; by repeat constructor.
Qed.

(** Where an exception of [check_and_reload_model] comes from. *)
Lemma check_and_reload_model_raises (a : Answers) (last_signal_time : Z) (c : Config)
    (e : exn) :
  result (check_and_reload_model a last_signal_time c) = Raise e →
  signal_response a = Raise e ∨ reload_answer a = Raise e ∨
  e = ValueError "Expecting value".
Proof.
  unfold check_and_reload_model, post_request, reload_model, json. run_monad.
  split_run; intros [= <-]; eauto.
Qed.

Lemma try_block_events (a : Answers) (last_signal_time : Z) (c : Config) :
  Forall (λ ev, of_try_block ev = true) (emitted (try_block a last_signal_time c)).
Proof.
  unfold try_block. run_monad.
  pose proof (check_and_reload_model_events a last_signal_time c) as Hcheck.
  destruct (check_and_reload_model a last_signal_time c) as [[last'|e] c1 evs1].
  - cbn [emitted] in Hcheck.
    assert (Forall (λ ev, of_try_block ev = true) (emitted (process_jobs a c1))) as Hjobs.
    { destruct (decide (local_ids a = [])) as [Hids|Hids].
      - rewrite (process_jobs_no_models a c1 Hids). by repeat constructor.
      - destruct (process_jobs_shape a c1 Hids) as (tail & -> & _ & Htail).
        apply Forall_app_2.
        + eapply Forall_impl; [apply send_miner_request_events|].
          intros ev Hev. unfold of_try_block. rewrite Hev. by rewrite orb_true_r.
        + eapply Forall_impl; [exact Htail|].
          intros ev Hev. unfold of_try_block. rewrite Hev. by rewrite orb_true_r. }
    destruct (process_jobs a c1) as [[executed|e] c2 evs2]; cbn [emitted] in *.
    all: rewrite ?app_nil_r; apply Forall_app_2; [|done].
    all: eapply Forall_impl; [exact Hcheck|].
    all: intros ev Hev; unfold of_try_block; by rewrite Hev.
  - cbn [emitted] in *. eapply Forall_impl; [exact Hcheck|].
    intros ev Hev. unfold of_try_block. by rewrite Hev.
Qed.

Lemma same_settings_refl (c : Config) : same_settings c c.
Proof. by repeat split. Qed.

Lemma same_settings_trans (c1 c2 c3 : Config) :
  same_settings c1 c2 → same_settings c2 c3 → same_settings c1 c3.
Proof. unfold same_settings. intros ? ?. split_and!; destruct_and!; congruence. Qed.

(** The check writes nothing but what [reload_model] does to the loaded
    models. *)
Lemma check_and_reload_model_frame (a : Answers) (last_signal_time : Z) (c : Config) :
  let r := check_and_reload_model a last_signal_time c in
  final r = c ∨ ∃ models, final r = set_loaded_models models c.
Proof.
  cbn zeta. unfold check_and_reload_model, post_request, reload_model, json. run_monad.
  split_run; eauto.
Qed.

(** [process_jobs] writes nothing but the heartbeat. *)
Lemma process_jobs_frame (a : Answers) (c : Config) :
  let r := process_jobs a c in
  final r = c ∨ final r = set_last_heartbeat (time_heartbeat_set a) c.
Proof.
  cbn zeta. destruct (decide (local_ids a = [])) as [Hids|Hids].
  { rewrite (process_jobs_no_models a c Hids). by left. }
  destruct (process_jobs_shape a c Hids) as (tail & _ & -> & _).
  destruct (send_miner_request_run a (first_or_None (loaded_models c)) (min_deadline c) c)
    as (o & rest & -> & _).
  cbn [final]. case_match; eauto.
Qed.

Lemma try_block_frame (a : Answers) (last_signal_time : Z) (c : Config) :
  same_settings c (final (try_block a last_signal_time c)).
Proof.
  unfold try_block. run_monad.
  pose proof (check_and_reload_model_frame a last_signal_time c) as Hcheck.
  destruct (check_and_reload_model a last_signal_time c) as [[t|e] c1 evs1];
    cbn [final] in *.
  - pose proof (process_jobs_frame a c1) as Hjobs.
    destruct (process_jobs a c1) as [[executed|e] c2 evs2]; cbn [final] in *.
    all: destruct Hcheck as [->|[models ->]]; destruct Hjobs as [->| ->];
      by repeat split.
  - destruct Hcheck as [->|[models ->]]; by repeat split.
Qed.

(** One turn, read off the run of lines 148-149. *)
Lemma iteration_run (a : Answers) (last_signal_time : Z) (c : Config) :
  let body := try_block a last_signal_time c in
  match result body with
  | Ret (last', true) =>
      iteration a last_signal_time c = Run (Ret last') (final body) (emitted body)
  | Ret (last', false) =>
      iteration a last_signal_time c =
        Run (after_sleep (final body) last') (final body)
            (emitted body ++ [EvSleep (sleep_duration (final body))])
  | Raise e =>
      if is_Exception e then
        ∃ last',
          iteration a last_signal_time c =
            Run (after_sleep (final body) last') (final body)
                (emitted body ++ [EvLog ERROR (MsgErrorOccurred e);
                                  EvSleep (sleep_duration (final body))])
      else iteration a last_signal_time c = Run (Raise e) (final body) (emitted body)
  end.
Proof.
  cbn zeta. unfold iteration, try_block, log_error, idle_sleep, after_sleep. run_monad.
  destruct (check_and_reload_model a last_signal_time c) as [[last'|e] c1 evs1].
  - destruct (process_jobs a c1) as [[[]|e] c2 evs2]; cbn.
    + done.
    + destruct (sleep_duration c2 <? 0); cbn; by rewrite <- !app_assoc.
    + destruct (is_Exception e); [|done]. eexists.
      destruct (sleep_duration c2 <? 0); cbn; by rewrite <- !app_assoc.
  - cbn. destruct (is_Exception e); [|done]. eexists.
    by destruct (sleep_duration c1 <? 0).
Qed.

(** Where an exception of lines 148-149 comes from. *)
Lemma try_block_raises (a : Answers) (last_signal_time : Z) (c : Config) (e : exn) :
  result (try_block a last_signal_time c) = Raise e →
  (e = SystemExit 0 ∧ local_ids a = []) ∨ collaborator_raises a e ∨
  is_Exception e = true.
Proof.
  unfold try_block, collaborator_raises. run_monad.
  pose proof (check_and_reload_model_raises a last_signal_time c) as Hcheck.
  destruct (check_and_reload_model a last_signal_time c) as [[last'|e1] c1 evs1].
  - pose proof (process_jobs_raises a c1) as Hjobs.
    destruct (process_jobs a c1) as [[executed|e2] c2 evs2]; [discriminate|].
    intros [= <-].
    destruct (Hjobs e2 eq_refl) as [?|[?|(data & key & _ & _ & Hkey)]].
    + by left.
    + right. left. naive_solver.
    + right. right. by eapply py_getitem_Raise.
  - intros [= <-]. destruct (Hcheck e1 eq_refl) as [?|[?| ->]]; eauto.
Qed.

(** A turn that returns hands over to the next turn. *)
Lemma main_loop_step (fuel : nat) (script : nat → Answers) (i : nat)
    (last_signal_time last' : Z) (c : Config) :
  let r := iteration (script i) last_signal_time c in
  result r = Ret last' →
  main_loop (S fuel) script i last_signal_time c =
    let next := main_loop fuel script (S i) last' (final r) in
    Run (result next) (final next) (emitted r ++ emitted next).
Proof.
  cbn zeta. intros Hr. cbn [main_loop]. run_monad.
  destruct (iteration (script i) last_signal_time c) as [o c1 evs1].
  cbn in Hr. subst o. cbn. by destruct (main_loop fuel script (S i) last' c1).
Qed.

(** A turn that raises ends the loop. *)
Lemma main_loop_stop (fuel : nat) (script : nat → Answers) (i : nat)
    (last_signal_time : Z) (c : Config) (e : exn) :
  let r := iteration (script i) last_signal_time c in
  result r = Raise e →
  main_loop (S fuel) script i last_signal_time c = Run (Raise e) (final r) (emitted r).
Proof.
  cbn zeta. intros Hr. cbn [main_loop]. run_monad.
  destruct (iteration (script i) last_signal_time c) as [o c1 evs1].
  cbn in Hr. by subst o.
Qed.

Lemma try_block_no_sleep (a : Answers) (last_signal_time : Z) (c : Config) :
  only is_sleep (emitted (try_block a last_signal_time c)) = [].
Proof.
  apply (only_disjoint is_sleep of_try_block); [|apply try_block_events].
  by intros [[]|[] []| | | | | | | | |].
Qed.

(** The turn of an empty local storage, its check throttled. *)
Lemma iteration_no_models (a : Answers) (last_signal_time : Z) (c : Config) :
  time_check a - last_signal_time < reload_interval c →
  local_ids a = [] →
  iteration a last_signal_time c = Run (Raise (SystemExit 0)) c [EvLog DEBUG MsgNoModels].
Proof.
  intros Hthrottled Hids. unfold iteration. run_monad.
  rewrite (check_and_reload_model_throttled a last_signal_time c Hthrottled).
  by rewrite (process_jobs_no_models a c Hids).
Qed.

(** C5. When the local storage is empty as the loop starts and the first
    check is throttled ([reload_interval] is positive and exceeds the time
    between the start of the loop and the check), the worker leaves with
    [SystemExit(0)], which the handler of the loop does not catch: the
    process ends with status 0 and no request was posted, neither for a job
    nor for a reload signal. *)
Theorem worker_exits_without_models (fuel : nat) (script : nat → Answers)
    (loop_start : Z) (c : Config) :
  0 < reload_interval c →
  time_check (script 0%nat) - loop_start < reload_interval c →
  local_ids (script 0%nat) = [] →
  let r := main_loop (S fuel) script 0 loop_start c in
  result r = Raise (SystemExit 0) ∧
  is_Exception (SystemExit 0) = false ∧
  process_status r = 0 ∧
  only is_post (emitted r) = [] ∧
  emitted r = [EvLog DEBUG MsgNoModels].
Proof.
  intros _ Hthrottled Hids. cbn zeta.
  rewrite (main_loop_stop fuel script 0 loop_start c (SystemExit 0));
    rewrite (iteration_no_models _ _ _ Hthrottled Hids); done.
Qed.

Lemma worker_exits_without_models_witness :
  result (main_loop 3 (λ _, Sample.with_local_ids [] (Sample.idle 1001)) 0 1000
            Sample.config) = Raise (SystemExit 0).
Proof.
  apply (worker_exits_without_models 2 (λ _, Sample.with_local_ids [] (Sample.idle 1001))
           1000 Sample.config).
  - vm_compute. reflexivity.
  - vm_compute. reflexivity.
  - reflexivity.
Defined.

(** C6. In every turn of the loop a sleep occurs, of [sleep_duration]
    seconds, exactly when no job was executed: [process_jobs] returned
    [False], or line 148 or 149 raised an [Exception].  A turn whose
    [process_jobs] returned [True] does not sleep, and the next turn follows
    its last event. *)
Theorem sleep_iff_not_executed (a : Answers) (last_signal_time : Z) (c : Config) :
  let body := try_block a last_signal_time c in
  let r := iteration a last_signal_time c in
  (only is_sleep (emitted r) = [] ∨
   only is_sleep (emitted r) = [EvSleep (sleep_duration (final r))]) ∧
  (only is_sleep (emitted r) ≠ [] ↔
     (∃ last', result body = Ret (last', false)) ∨
     (∃ e, result body = Raise e ∧ is_Exception e = true)) ∧
  (∀ last', result body = Ret (last', true) →
     result r = Ret last' ∧ only is_sleep (emitted r) = [] ∧
     ∀ fuel script i, script i = a →
       emitted (main_loop (S fuel) script i last_signal_time c) =
         emitted r ++ emitted (main_loop fuel script (S i) last' (final r))).
Proof.
  cbn zeta.
  pose proof (iteration_run a last_signal_time c) as Hrun. cbn zeta in Hrun.
  pose proof (try_block_no_sleep a last_signal_time c) as Hquiet.
  destruct (result (try_block a last_signal_time c)) as [[last' []]|e] eqn:Hbody.
  - rewrite Hrun. cbn [emitted final result]. rewrite Hquiet.
    split_and!; [by left|naive_solver|].
    intros ? [= <-]. split_and!; [done..|].
    intros fuel script i <-.
    rewrite (main_loop_step fuel script i last_signal_time last' c); by rewrite Hrun.
  - rewrite Hrun. cbn [emitted final result]. rewrite only_app, Hquiet.
    split_and!; [by right|naive_solver|done].
  - destruct (is_Exception e) eqn:He.
    + destruct Hrun as [last' ->]. cbn [emitted final result]. rewrite only_app, Hquiet.
      split_and!; [by right|naive_solver|done].
    + rewrite Hrun. cbn [emitted final result]. rewrite Hquiet.
      split_and!; [by left| |done].
      split; [done|]. intros [[? [=]]|(e' & [= <-] & ?)]. congruence.
Qed.

(** Scenario A of the spec: a loaded model, a throttled check, no job:
    one request for [m1], an idle report, a sleep. *)
Example scenario_A :
  let r := iteration (Sample.idle 1010) 1000 Sample.config in
  result r = Ret 1000 ∧
  (∃ body, only is_post (emitted r) = [EvPost "https://coordinator/miner_request" body "0x123"]
           ∧ body !! "model_id" = Some (VStr "m1")) ∧
  only is_submit (emitted r) = [] ∧
  only is_sleep (emitted r) = [EvSleep 5].
Proof. cbn zeta. split_and!; [by vm_compute|eexists; by vm_compute|by vm_compute..]. Qed.

(** Scenario B: the coordinator returns a job, which is submitted; no
    sleep. *)
Example scenario_B :
  let r := iteration (Sample.with_data (VDict Sample.job) (Sample.idle 1010)) 1000
             Sample.config in
  result r = Ret 1000 ∧
  only is_submit (emitted r) =
    [EvSubmit "0x123" (VDict Sample.job) (VDict {[ "token" := VStr "t" ]}) 1012 1] ∧
  only is_sleep (emitted r) = [].
Proof. by vm_compute. Qed.

(** C7, as stated, fails: with a negative [sleep_duration] the exception
    of the request is caught and logged, but the sleep of line 154, outside
    the [try], raises [ValueError]: an [Exception] ends the worker, though
    the local storage is not empty and no collaborator raised it. *)
Lemma caught_exception_continues_counterexample :
  let a := Sample.with_job_response (Raise (RuntimeError "connection reset"))
             (Sample.idle 1010) in
  let e := ValueError "sleep length must be non-negative" in
  result (try_block a 1000 Sample.negative_sleep) =
    Raise (RuntimeError "connection reset") ∧
  is_Exception (RuntimeError "connection reset") = true ∧
  In (EvLog ERROR (MsgErrorOccurred (RuntimeError "connection reset")))
     (emitted (iteration a 1000 Sample.negative_sleep)) ∧
  result (iteration a 1000 Sample.negative_sleep) = Raise e ∧
  result (main_loop 3 (λ _, a) 0 1000 Sample.negative_sleep) = Raise e ∧
  is_Exception e = true ∧ local_ids a ≠ [] ∧ ¬ collaborator_raises a e.
Proof.
  cbn zeta. split_and!; try (by vm_compute).
  - vm_compute. right. left. reflexivity.
  - intros H. vm_compute in H. destruct_or?; discriminate.
Qed.

(** C7, amended.  An [Exception] raised by line 148 or 149 is caught and
    logged, and the turn takes the sleep branch as a turn that executed
    nothing.  When [sleep_duration] is not negative the sleep returns and
    the loop goes on with the next turn; a turn then ends the worker only
    with an exception that is not an [Exception]: the exit of the empty
    local storage, or one raised inside a collaborator (where a termination
    signal surfaces).  When [sleep_duration] is negative the sleep of line
    154, outside the [try], raises [ValueError] and ends the worker. *)
Theorem caught_exception_continues (a : Answers) (last_signal_time : Z) (c : Config) :
  let body := try_block a last_signal_time c in
  let r := iteration a last_signal_time c in
  (∀ e, result body = Raise e → is_Exception e = true →
     emitted r = emitted body ++ [EvLog ERROR (MsgErrorOccurred e);
                                  EvSleep (sleep_duration c)] ∧
     final r = final body ∧
     (0 ≤ sleep_duration c →
        ∃ last',
          result r = Ret last' ∧
          ∀ fuel script i, script i = a →
            main_loop (S fuel) script i last_signal_time c =
              let next := main_loop fuel script (S i) last' (final r) in
              Run (result next) (final next) (emitted r ++ emitted next)) ∧
     (sleep_duration c < 0 →
        result r = Raise (ValueError "sleep length must be non-negative"))) ∧
  (∀ e, result r = Raise e →
     (result body = Raise e ∧ is_Exception e = false ∧
      ((e = SystemExit 0 ∧ local_ids a = []) ∨ collaborator_raises a e)) ∨
     (sleep_duration c < 0 ∧ e = ValueError "sleep length must be non-negative")).
Proof.
  cbn zeta.
  pose proof (iteration_run a last_signal_time c) as Hrun. cbn zeta in Hrun.
  destruct (try_block_frame a last_signal_time c) as (_ & _ & _ & _ & Hsleep & _).
  unfold after_sleep in Hrun. rewrite Hsleep in Hrun.
  split.
  - intros e Hbody He. rewrite Hbody, He in Hrun. destruct Hrun as [last' Hrun].
    rewrite Hrun. cbn [result final emitted]. split_and!; [done..| |].
    + intros Hpos. destruct (Z.ltb_spec (sleep_duration c) 0); [lia|].
      exists last'. split; [done|].
      intros fuel script i <-.
      rewrite (main_loop_step fuel script i last_signal_time last' c); by rewrite Hrun.
    + intros Hneg. by destruct (Z.ltb_spec (sleep_duration c) 0); [|lia].
  - intros e Hr.
    destruct (result (try_block a last_signal_time c)) as [[last' []]|e'] eqn:Hbody.
    + rewrite Hrun in Hr. discriminate.
    + rewrite Hrun in Hr. cbn [result] in Hr.
      destruct (Z.ltb_spec (sleep_duration c) 0); [|discriminate].
      injection Hr as <-. by right.
    + destruct (is_Exception e') eqn:He.
      * destruct Hrun as [last' Hrun]. rewrite Hrun in Hr. cbn [result] in Hr.
        destruct (Z.ltb_spec (sleep_duration c) 0); [|discriminate].
        injection Hr as <-. by right.
      * rewrite Hrun in Hr. injection Hr as <-. left. split_and!; [done..|].
        destruct (try_block_raises a last_signal_time c e' Hbody) as [?|[?|?]];
          [by left|by right|congruence].
Qed.

Lemma caught_exception_continues_witness :
  ∃ last',
    result (iteration (Sample.with_job_response (Raise (RuntimeError "connection reset"))
                         (Sample.idle 1010)) 1000 Sample.config) = Ret last' ∧
    emitted (iteration (Sample.with_job_response (Raise (RuntimeError "connection reset"))
                          (Sample.idle 1010)) 1000 Sample.config) =
      [EvPost "https://coordinator/miner_request"
         {[ "miner_id" := VStr "0x123"; "model_id" := VStr "m1";
            "min_deadline" := VInt 3 ]} "0x123";
       EvLog ERROR (MsgErrorOccurred (RuntimeError "connection reset"));
       EvSleep 5].
Proof.
  destruct (caught_exception_continues
              (Sample.with_job_response (Raise (RuntimeError "connection reset"))
                 (Sample.idle 1010)) 1000 Sample.config) as [Hcaught _].
  destruct (Hcaught (RuntimeError "connection reset")) as (Hevents & _ & Hgoes & _).
  - reflexivity.
  - reflexivity.
  - destruct Hgoes as (last' & Hret & _); [by vm_compute|].
    exists last'. split; [exact Hret|exact Hevents].
Defined.

(** ** The miner identity *)

(** When every id is set, validation passes and prints one warning for
    each id that does not start with [0x]. *)
Lemma validate_miner_ids_all_set (ids : list (option string)) (i : nat) (c : Config) :
  Forall is_Some ids →
  ∃ evs,
    validate_miner_ids ids i c = Run (Ret tt) c evs ∧
    ∀ ev, In ev evs ↔
      ∃ k s, ids !! k = Some (Some s) ∧ String.prefix "0x" s = false ∧
             ev = EvPrint (MsgMinerIdPrefix s (i + k)).
Proof.
  intros Hall. revert i. induction Hall as [|x ids [s ->] _ IH]; intros i.
  - exists []. split; [done|]. intros ev. split; [done|].
    by intros (k & s & Hk & _).
  - destruct (IH (S i)) as (evs & Hrun & Hevs).
    cbn [validate_miner_ids]. run_monad.
    destruct (String.prefix "0x" s) eqn:Hs; rewrite Hrun; cbn.
    + exists evs. split; [done|]. intros ev. rewrite Hevs. split.
      * intros (k & s' & Hk & Hs' & ->). exists (S k), s'.
        split_and!; [done..|]. do 2 f_equal. lia.
      * intros ([|k] & s' & Hk & Hs' & ->); cbn in Hk.
        -- congruence.
        -- exists k, s'. split_and!; [done..|]. do 2 f_equal. lia.
    + exists (EvPrint (MsgMinerIdPrefix s i) :: evs). split; [done|].
      intros ev. cbn. rewrite Hevs. split.
      * intros [<-|(k & s' & Hk & Hs' & ->)].
        -- exists 0%nat, s. split_and!; [done..|]. do 2 f_equal. lia.
        -- exists (S k), s'. split_and!; [done..|]. do 2 f_equal. lia.
      * intros ([|k] & s' & Hk & Hs' & ->); cbn in Hk.
        -- left. injection Hk as <-. do 2 f_equal. lia.
        -- right. exists k, s'. split_and!; [done..|]. do 2 f_equal. lia.
Qed.

(** When an id is missing, validation raises [ValueError] at the first
    missing one. *)
Lemma validate_miner_ids_missing (ids : list (option string)) (i : nat) (c : Config) :
  ¬ Forall is_Some ids →
  ∃ k evs,
    ids !! k = Some None ∧
    validate_miner_ids ids i c =
      Run (Raise (ValueError ("Miner ID for GPU " +:+ pretty (i + k)%nat
                              +:+ " not found in .env.")))
          c (evs ++ [EvPrint (MsgMinerIdMissing (i + k))]).
Proof.
  revert i. induction ids as [|[s|] ids IH]; intros i Hmissing.
  - by destruct Hmissing.
  - destruct (IH (S i)) as (k & evs & Hk & Hrun).
    { intros Hall. apply Hmissing. constructor; [by eexists|done]. }
    cbn [validate_miner_ids]. run_monad.
    replace (S i + k)%nat with (i + S k)%nat in Hrun by lia.
    destruct (String.prefix "0x" s); rewrite Hrun; cbn.
    + by exists (S k), evs.
    + by exists (S k), (EvPrint (MsgMinerIdPrefix s i) :: evs).
  - exists 0%nat, []. split; [done|]. cbn [validate_miner_ids]. run_monad.
    by rewrite Nat.add_0_r.
Qed.

(** The list comprehension of line 32. *)
Lemma miner_ids_lookup (environ : gmap string string) (n j : nat) :
  ((λ i, getenv environ (miner_id_var i)) <$> seq 0 n) !! j =
  if decide (j < n)%nat then Some (getenv environ (miner_id_var j)) else None.
Proof.
  rewrite list_lookup_fmap. case_decide.
  - by rewrite lookup_seq_lt.
  - by rewrite lookup_seq_ge by lia.
Qed.

Lemma miner_ids_all_set (environ : gmap string string) (n : nat) :
  Forall is_Some ((λ i, getenv environ (miner_id_var i)) <$> seq 0 n) ↔
  ∀ j, (j < n)%nat → is_Some (getenv environ (miner_id_var j)).
Proof.
  rewrite Forall_lookup. split.
  - intros H j Hj. apply (H j). rewrite miner_ids_lookup. by rewrite decide_True.
  - intros H j x. rewrite miner_ids_lookup. case_decide; [|done].
    intros [= <-]. by apply H.
Qed.

Example miner_id_var_1 : miner_id_var 1 = "MINER_ID_1".
Proof. by vm_compute. Qed.

(** C8, as stated, fails: [MINER_ID_1] is set to the empty string, so no
    id is missing and construction succeeds for device 1, which is
    assigned the identity of device 0 and not the value of [MINER_ID_1]. *)
Lemma miner_id_per_device_counterexample :
  let r0 := MinerConfig_init Sample.environ_empty_id 0 Sample.two_devices in
  let r1 := MinerConfig_init Sample.environ_empty_id 1 Sample.two_devices in
  (∀ j, (j < 2)%nat → is_Some (getenv Sample.environ_empty_id (miner_id_var j))) ∧
  result r1 = Ret tt ∧
  Some (miner_id (final r1)) ≠ getenv Sample.environ_empty_id (miner_id_var 1) ∧
  miner_id (final r1) = miner_id (final r0).
Proof.
  cbn zeta. split_and!.
  - intros [|[|j]] Hj; [by vm_compute; eexists..|lia].
  - by vm_compute.
  - by vm_compute.
  - by vm_compute.
Qed.

(** The constructor once validation has passed: lines 42-48. *)
Lemma MinerConfig_init_validated (environ : gmap string string) (i : nat) (c : Config) :
  (i < num_cuda_devices c)%nat →
  (∀ j, (j < num_cuda_devices c)%nat → is_Some (getenv environ (miner_id_var j))) →
  ∃ evs,
    (∀ ev, In ev evs ↔
       ∃ k s, (k < num_cuda_devices c)%nat ∧ getenv environ (miner_id_var k) = Some s ∧
              String.prefix "0x" s = false ∧ ev = EvPrint (MsgMinerIdPrefix s k)) ∧
    MinerConfig_init environ i c =
      match (if (1 <? num_cuda_devices c)%nat
             then truthy_id (getenv environ (miner_id_var i)) else None) with
      | Some s => Run (Ret tt) (set_miner_id s c) evs
      | None =>
          match truthy_id (getenv environ (miner_id_var 0)) with
          | Some s => Run (Ret tt) (set_miner_id s c) evs
          | None =>
              Run (Raise (ValueError "miner_id not found in .env.")) c
                  (evs ++ [EvPrint MsgMinerIdNotFound])
          end
      end.
Proof.
  intros Hi Hall.
  destruct (validate_miner_ids_all_set
              ((λ i, getenv environ (miner_id_var i)) <$> seq 0 (num_cuda_devices c)) 0 c)
    as (evs & Hrun & Hevs); [by apply miner_ids_all_set|].
  exists evs. split.
  - intros ev. rewrite Hevs. split.
    + intros (k & s & Hk & Hs & ->). rewrite miner_ids_lookup in Hk.
      case_decide; [|done]. injection Hk as Hk. by exists k, s.
    + intros (k & s & Hk & Hvar & Hs & ->). exists k, s.
      rewrite miner_ids_lookup, decide_True by done. by rewrite Hvar.
  - unfold MinerConfig_init, _load_and_validate_miner_ids, _assign_miner_id, py_index.
    run_monad. rewrite Hrun. cbn [result final emitted app].
    rewrite !miner_ids_lookup, decide_True by done.
    rewrite decide_True by lia.
    destruct (1 <? num_cuda_devices c)%nat; cbn [result final emitted app].
    + destruct (truthy_id (getenv environ (miner_id_var i)));
        cbn [result final emitted app]; [by rewrite !app_nil_r|].
      destruct (truthy_id (getenv environ (miner_id_var 0)));
        cbn [result final emitted app]; by rewrite ?app_nil_r.
    + destruct (truthy_id (getenv environ (miner_id_var 0)));
        cbn [result final emitted app]; by rewrite ?app_nil_r.
Qed.

(** C8, amended.  For a device index [i] below [num_cuda_devices]: when
    some [MINER_ID_j] below the count is missing, construction fails with
    [ValueError]; when all are set, the device is assigned the value of
    [MINER_ID_i] if it is not empty, and otherwise falls back on
    [MINER_ID_0], the identity of device 0, failing with [ValueError] when
    that is empty too; two devices whose own values are not empty and
    different are assigned different identities; an id that does not start
    with [0x] is printed in a warning and changes nothing else. *)
Theorem MinerConfig_init_assigns (environ : gmap string string) (i : nat) (c : Config) :
  (i < num_cuda_devices c)%nat →
  let n := num_cuda_devices c in
  let var j := getenv environ (miner_id_var j) in
  let r := MinerConfig_init environ i c in
  ((∃ j, (j < n)%nat ∧ var j = None) →
     ∃ msg, result r = Raise (ValueError msg) ∧ final r = c) ∧
  ((∀ j, (j < n)%nat → is_Some (var j)) →
     (∀ s, var i = Some s → s ≠ "" →
        result r = Ret tt ∧ miner_id (final r) = s ∧ final r = set_miner_id s c) ∧
     (var i = Some "" → ∀ s0, var 0%nat = Some s0 →
        if String.eqb s0 ""
        then result r = Raise (ValueError "miner_id not found in .env.") ∧ final r = c
        else result r = Ret tt ∧ miner_id (final r) = s0 ∧
             miner_id (final r) = miner_id (final (MinerConfig_init environ 0 c)) ∧
             final r = set_miner_id s0 c) ∧
     (∀ j si sj, (j < n)%nat →
        var i = Some si → si ≠ "" → var j = Some sj → sj ≠ "" → si ≠ sj →
        miner_id (final r) ≠ miner_id (final (MinerConfig_init environ j c))) ∧
     (∀ j s, In (EvPrint (MsgMinerIdPrefix s j)) (emitted r) ↔
        (j < n)%nat ∧ var j = Some s ∧ String.prefix "0x" s = false)).
Proof.
  intros Hi. cbn zeta. split.
  - intros (j & Hj & Hmissing).
    destruct (validate_miner_ids_missing
                ((λ i, getenv environ (miner_id_var i)) <$> seq 0 (num_cuda_devices c)) 0 c)
      as (k & evs & _ & Hrun).
    { rewrite miner_ids_all_set. intros Hall.
      destruct (Hall j Hj) as [s Hs]. congruence. }
    unfold MinerConfig_init, _load_and_validate_miner_ids. run_monad.
    rewrite Hrun. cbn. eauto.
  - intros Hall.
    assert (∀ k s, (k < num_cuda_devices c)%nat →
              getenv environ (miner_id_var k) = Some s → s ≠ "" →
              result (MinerConfig_init environ k c) = Ret tt ∧
              final (MinerConfig_init environ k c) = set_miner_id s c) as Hown.
    { intros k s Hk Hs Hne.
      destruct (MinerConfig_init_validated environ k c Hk Hall) as (evs & _ & ->).
      rewrite Hs. cbn [truthy_id].
      destruct (String.eqb_spec s ""); [done|].
      destruct (1 <? num_cuda_devices c)%nat eqn:Hn; [done|].
      apply Nat.ltb_ge in Hn. assert (k = 0)%nat as -> by lia.
      rewrite Hs. cbn [truthy_id]. by destruct (String.eqb_spec s ""). }
    split_and!.
    + intros s Hs Hne. destruct (Hown i s Hi Hs Hne) as [-> ->]. done.
    + intros Hempty s0 Hs0.
      destruct (String.eqb_spec s0 "") as [->|Hne].
      * destruct (MinerConfig_init_validated environ i c Hi Hall) as (evs & _ & ->).
        rewrite Hempty, Hs0. cbn [truthy_id String.eqb].
        by destruct (1 <? num_cuda_devices c)%nat.
      * destruct (Hown 0%nat s0 ltac:(lia) Hs0 Hne) as [_ ->].
        destruct (MinerConfig_init_validated environ i c Hi Hall) as (evs & _ & ->).
        rewrite Hempty, Hs0. cbn [truthy_id String.eqb].
        destruct (String.eqb_spec s0 ""); [done|].
        by destruct (1 <? num_cuda_devices c)%nat.
    + intros j si sj Hj Hsi Hnei Hsj Hnej Hne.
      destruct (Hown i si Hi Hsi Hnei) as [_ ->].
      destruct (Hown j sj Hj Hsj Hnej) as [_ ->]. done.
    + intros j s.
      destruct (MinerConfig_init_validated environ i c Hi Hall) as (evs & Hevs & ->).
      assert (In (EvPrint (MsgMinerIdPrefix s j)) evs ↔
              (j < num_cuda_devices c)%nat ∧ getenv environ (miner_id_var j) = Some s ∧
              String.prefix "0x" s = false) as Hiff.
      { rewrite Hevs. split; [by intros (k & s' & ? & ? & ? & [= -> ->])|].
        intros (? & ? & ?). by exists j, s. }
      rewrite <- Hiff.
      destruct (if (1 <? num_cuda_devices c)%nat
                then truthy_id (getenv environ (miner_id_var i)) else None); [done|].
      destruct (truthy_id (getenv environ (miner_id_var 0))); [done|].
      cbn [emitted]. rewrite in_app_iff. cbn. naive_solver.
Qed.

Lemma MinerConfig_init_assigns_witness :
  let r := MinerConfig_init Sample.environ_two 1 Sample.two_devices in
  result r = Ret tt ∧ miner_id (final r) = "0xB" ∧
  miner_id (final r) ≠
    miner_id (final (MinerConfig_init Sample.environ_two 0 Sample.two_devices)).
Proof.
  destruct (MinerConfig_init_assigns Sample.environ_two 1 Sample.two_devices)
    as [_ Hset].
  - vm_compute. lia.
  - destruct Hset as (Hown & _ & Hdistinct & _).
    + intros [|[|j]] Hj; [by vm_compute; eexists..|]. vm_compute in Hj. lia.
    + destruct (Hown "0xB") as (Hret & Hid & _); [by vm_compute|discriminate|].
      split_and!; [exact Hret|exact Hid|].
      apply (Hdistinct 0%nat "0xB" "0xA");
        [vm_compute; lia|by vm_compute|discriminate|by vm_compute|discriminate..].
Defined.

(** An environment with an empty id in the middle: device 1 shares the
    identity of device 0, device 2 keeps its own. *)
Example three_devices_identities :
  miner_id (final (MinerConfig_init Sample.environ_three 0 Sample.three_devices)) = "0xA" ∧
  miner_id (final (MinerConfig_init Sample.environ_three 1 Sample.three_devices)) = "0xA" ∧
  miner_id (final (MinerConfig_init Sample.environ_three 2 Sample.three_devices)) = "0xB".
Proof. by vm_compute. Qed.

(** Devices whose ids are set, not empty and different get different
    identities. *)
Corollary MinerConfig_init_distinct (environ : gmap string string) (i j : nat)
    (c : Config) (si sj : string) :
  (i < num_cuda_devices c)%nat → (j < num_cuda_devices c)%nat →
  (∀ k, (k < num_cuda_devices c)%nat → is_Some (getenv environ (miner_id_var k))) →
  getenv environ (miner_id_var i) = Some si → si ≠ "" →
  getenv environ (miner_id_var j) = Some sj → sj ≠ "" →
  si ≠ sj →
  miner_id (final (MinerConfig_init environ i c)) ≠
  miner_id (final (MinerConfig_init environ j c)).
Proof.
  intros Hi Hj Hall Hsi Hnei Hsj Hnej Hne.
  destruct (MinerConfig_init_validated environ i c Hi Hall) as (evs1 & _ & ->).
  destruct (MinerConfig_init_validated environ j c Hj Hall) as (evs2 & _ & ->).
  rewrite Hsi, Hsj. cbn [truthy_id].
  destruct (String.eqb_spec si ""); [done|]. destruct (String.eqb_spec sj ""); [done|].
  destruct (1 <? num_cuda_devices c)%nat eqn:Hn; [done|].
  apply Nat.ltb_ge in Hn. assert (i = 0 ∧ j = 0)%nat as [-> ->] by lia. congruence.
Qed.

(** ** The supervisor *)

Lemma validate_miner_ids_prints (ids : list (option string)) (i : nat) (c : Config) :
  Forall (λ ev, is_print ev = true) (emitted (validate_miner_ids ids i c)).
Proof.
  revert i. induction ids as [|[s|] ids IH]; intros i; cbn [validate_miner_ids].
  - by constructor.
  - run_monad. specialize (IH (S i)).
    destruct (String.prefix "0x" s); cbn [result final emitted app];
      destruct (validate_miner_ids ids (S i) c) as [o c1 evs]; cbn in *;
      repeat constructor; done.
  - run_monad. by repeat constructor.
Qed.

(** Loading the config prints and does nothing else that is observable. *)
Lemma load_config_prints (h : Host) (i : nat) (c : Config) :
  Forall (λ ev, is_print ev = true) (emitted (load_config h i c)).
Proof.
  unfold load_config, MinerConfig_init, _load_and_validate_miner_ids, _assign_miner_id,
    py_index.
  run_monad.
  pose proof (validate_miner_ids_prints
    ((λ i, getenv (environ h) (miner_id_var i)) <$> seq 0 (num_cuda_devices c)) 0 c) as Hv.
  destruct (validate_miner_ids _ 0 c) as [[[]|e] c1 evs]; cbn [result final emitted app] in *;
    [|done].
  split_run; rewrite ?app_nil_r; try done.
  all: apply Forall_app_2; [done|by repeat constructor].
Qed.

Lemma for_each_spawn (devices : list nat) (c : Config) :
  for_each (λ i, emit (EvSpawn i)) devices c = Run (Ret tt) c (EvSpawn <$> devices).
Proof.
  induction devices as [|i devices IH]; [done|].
  cbn [for_each]. cbv [mbind M_bind bind_M].
  change (emit (EvSpawn i) c) with (Run (Ret tt) c [EvSpawn i]).
  cbv beta iota. by rewrite IH.
Qed.

Lemma for_each_join (devices : list nat) (c : Config) :
  for_each (λ i, emit (EvJoin i)) devices c = Run (Ret tt) c (EvJoin <$> devices).
Proof.
  induction devices as [|i devices IH]; [done|].
  cbn [for_each]. cbv [mbind M_bind bind_M].
  change (emit (EvJoin i) c) with (Run (Ret tt) c [EvJoin i]).
  cbv beta iota. by rewrite IH.
Qed.

(** C9. When the configured [num_cuda_devices] exceeds the number of
    devices of the machine, the supervisor leaves through [sys.exit(1)]:
    its status is 1 and no worker process has been spawned. *)
Theorem supervisor_rejects_device_count (h : Host) :
  let loaded := load_config h 0 (base_config h 0) in
  result loaded = Ret tt →
  (device_count h < num_cuda_devices (final loaded))%nat →
  let r := supervisor h in
  result r = Raise (SystemExit 1) ∧
  process_status r = 1 ∧
  only is_spawn (emitted r) = [] ∧
  emitted r = emitted loaded ++ [EvPrint MsgTooManyDevices].
Proof.
  cbn zeta. intros Hloaded Hcount.
  pose proof (load_config_prints h 0 (base_config h 0)) as Hprints.
  unfold supervisor, process_status. run_monad.
  destruct (load_config h 0 (base_config h 0)) as [o c1 evs].
  cbn [result final emitted] in *. subst o.
  apply Nat.ltb_lt in Hcount. rewrite Hcount. cbn [result final emitted app].
  split_and!; [done..| |done].
  rewrite only_app. cbn.
  by rewrite (only_disjoint is_spawn is_print evs); [|intros []|].
Qed.

Lemma supervisor_rejects_device_count_witness :
  process_status (supervisor (Sample.host 1)) = 1 ∧
  only is_spawn (emitted (supervisor (Sample.host 1))) = [].
Proof.
  destruct (supervisor_rejects_device_count (Sample.host 1)) as (_ & Hstatus & Hspawn & _).
  - by vm_compute.
  - vm_compute. lia.
  - by split.
Defined.

(** With enough devices the supervisor spawns one worker per device
    index. *)
Lemma supervisor_spawns (h : Host) :
  let loaded := load_config h 0 (base_config h 0) in
  result loaded = Ret tt →
  (num_cuda_devices (final loaded) ≤ device_count h)%nat →
  check_cuda_answer h = Ret tt →
  only is_spawn (emitted (supervisor h)) =
    EvSpawn <$> seq 0 (num_cuda_devices (final loaded)).
Proof.
  cbn zeta. intros Hloaded Hcount Hcuda.
  pose proof (load_config_prints h 0 (base_config h 0)) as Hprints.
  pose proof for_each_spawn as Hspawn. pose proof for_each_join as Hjoin.
  unfold emit in Hspawn, Hjoin.
  unfold supervisor. run_monad.
  destruct (load_config h 0 (base_config h 0)) as [o c1 evs].
  cbn [result final emitted] in *. subst o.
  apply Nat.ltb_ge in Hcount. rewrite Hcount, Hcuda. cbn [result final emitted app].
  rewrite Hspawn. cbn [result final emitted app]. rewrite Hjoin.
  cbn [result final emitted app].
  rewrite !only_app, (only_disjoint is_spawn is_print evs); [|by intros []|done].
  rewrite !only_cons_false by done. cbn [app].
  generalize (seq 0 (num_cuda_devices c1)). intros l.
  rewrite only_app.
  replace (only is_spawn (EvJoin <$> l)) with (@nil event)
    by (induction l; [done|by rewrite fmap_cons, only_cons_false]).
  rewrite app_nil_r.
  induction l as [|i l IH]; [done|]. by rewrite fmap_cons, only_cons_true, IH.
Qed.

Example scenario_D :
  process_status (supervisor (Sample.host 1)) = 1 ∧
  only is_spawn (emitted (supervisor (Sample.host 1))) = [] ∧
  only is_spawn (emitted (supervisor (Sample.host 2))) = [EvSpawn 0; EvSpawn 1].
Proof. by vm_compute. Qed.

(** ** main *)

(** The identity is assigned before the loop: a constructor that raises
    ends [main] before any turn, with nothing but prints. *)
Lemma main_needs_identity (h : Host) (cuda_device_id fuel : nat) (e : exn) :
  let loaded := load_config h cuda_device_id (base_config h cuda_device_id) in
  result loaded = Raise e →
  main h cuda_device_id fuel = Run (Raise e) (final loaded) (emitted loaded) ∧
  Forall (λ ev, is_print ev = true) (emitted (main h cuda_device_id fuel)).
Proof.
  cbn zeta. intros Hloaded.
  pose proof (load_config_prints h cuda_device_id (base_config h cuda_device_id)) as Hprints.
  unfold main. run_monad.
  destruct (load_config h cuda_device_id (base_config h cuda_device_id)) as [o c1 evs].
  cbn [result final emitted] in *. by subst o.
Qed.

(** X22. With a clock that does not run backwards, a heartbeat moves
    [last_heartbeat] forward by at least 60 seconds. *)
Corollary heartbeat_advances (a : Answers) (model_id : pyval) (deadline : Z) (c : Config) :
  60 ≤ time_heartbeat_test a - last_heartbeat c →
  time_heartbeat_test a ≤ time_heartbeat_set a →
  last_heartbeat c + 60 ≤
    last_heartbeat (final (send_miner_request a model_id deadline c)).
Proof.
  intros Hstale Hclock.
  destruct (send_miner_request_run a model_id deadline c) as (o & rest & -> & _).
  cbn [final]. destruct (Z.leb_spec 60 (time_heartbeat_test a - last_heartbeat c)); [|lia].
  cbn. lia.
Qed.

(** The time returned by the check: the current time when the check was
    due and returned, the time passed in when it was throttled. *)
Lemma check_and_reload_model_returns (a : Answers) (last_signal_time t : Z) (c : Config) :
  result (check_and_reload_model a last_signal_time c) = Ret t →
  t = if reload_interval c <=? time_check a - last_signal_time
      then time_check a else last_signal_time.
Proof.
  unfold check_and_reload_model, post_request, reload_model, json. run_monad.
  destruct (Z.leb_spec (reload_interval c) (time_check a - last_signal_time)) as [Hdue|Hearly].
  - split_run; intros [= <-]; try done.
    all: repeat match goal with
         | H : (_ <? _) = true |- _ => apply Z.ltb_lt in H
         | H : (_ <? _) = false |- _ => apply Z.ltb_ge in H
         end; try lia.
  - cbn. destruct (Z.ltb_spec (time_check a - last_signal_time) (reload_interval c));
      intros [= <-]; [done|lia].
Qed.

(** * Further properties *)

(** ** The constructor at its edges *)

(** Validation of a list whose first part is all set goes on with the
    rest. *)
Lemma validate_miner_ids_app (set rest : list (option string)) (i : nat) (c : Config) :
  Forall is_Some set →
  ∃ warnings,
    validate_miner_ids set i c = Run (Ret tt) c warnings ∧
    validate_miner_ids (set ++ rest) i c =
      let r := validate_miner_ids rest (i + length set) c in
      Run (result r) (final r) (warnings ++ emitted r).
Proof.
  intros Hset. revert i. induction Hset as [|x set [s ->] _ IH]; intros i.
  - exists []. split; [done|]. cbn. rewrite Nat.add_0_r.
    by destruct (validate_miner_ids rest i c).
  - destruct (IH (S i)) as (warnings & Hset & Hall).
    replace (i + length (Some s :: set))%nat with (S i + length set)%nat by (cbn; lia).
    cbn [validate_miner_ids app]. run_monad.
    destruct (String.prefix "0x" s); rewrite Hall, Hset; cbn [result final emitted app].
    + exists warnings. split; [done|].
      by destruct (validate_miner_ids rest (S i + length set) c).
    + exists (EvPrint (MsgMinerIdPrefix s i) :: warnings). split; [done|].
      by destruct (validate_miner_ids rest (S i + length set) c).
Qed.

(** The ids read from the environment, cut at index [k]. *)
Lemma miner_ids_split (environ : gmap string string) (n k : nat) :
  (k < n)%nat →
  (λ i, getenv environ (miner_id_var i)) <$> seq 0 n =
  ((λ i, getenv environ (miner_id_var i)) <$> seq 0 k) ++
  getenv environ (miner_id_var k) ::
  ((λ i, getenv environ (miner_id_var i)) <$> seq (S k) (n - S k)).
Proof.
  intros Hk. replace n with (k + S (n - S k))%nat at 1 by lia.
  by rewrite seq_app, fmap_app.
Qed.

(** X1. [_load_and_validate_miner_ids] fails at the first missing id: it
    raises the [ValueError] that names the lowest GPU index [k] whose
    [MINER_ID_k] is not set, after printing the error for [k] and the
    warnings of the ids below [k] only; the config is not touched. *)
Theorem load_and_validate_first_missing (environ : gmap string string) (c : Config)
    (k : nat) :
  (k < num_cuda_devices c)%nat →
  getenv environ (miner_id_var k) = None →
  (∀ j, (j < k)%nat → is_Some (getenv environ (miner_id_var j))) →
  let r := _load_and_validate_miner_ids environ c in
  result r = Raise (ValueError ("Miner ID for GPU " +:+ pretty k +:+ " not found in .env.")) ∧
  final r = c ∧
  ∃ warnings,
    emitted r = warnings ++ [EvPrint (MsgMinerIdMissing k)] ∧
    ∀ ev, In ev warnings ↔
      ∃ j s, (j < k)%nat ∧ getenv environ (miner_id_var j) = Some s ∧
             String.prefix "0x" s = false ∧ ev = EvPrint (MsgMinerIdPrefix s j).
Proof.
  intros Hk Hmissing Hbelow. cbn zeta.
  unfold _load_and_validate_miner_ids. run_monad.
  rewrite (miner_ids_split environ (num_cuda_devices c) k Hk), Hmissing.
  set (below := (λ i, getenv environ (miner_id_var i)) <$> seq 0 k).
  assert (Forall is_Some below) as Hset by (by apply miner_ids_all_set).
  destruct (validate_miner_ids_app below
              (None :: ((λ i, getenv environ (miner_id_var i)) <$>
                        seq (S k) (num_cuda_devices c - S k))) 0 c Hset)
    as (warnings & Hrun & ->).
  destruct (validate_miner_ids_all_set below 0 c Hset) as (evs & Hrun' & Hevs).
  assert (evs = warnings) as -> by congruence.
  assert (length below = k) as Hlen by (unfold below; by rewrite length_fmap, length_seq).
  cbn [validate_miner_ids]. run_monad. rewrite Hlen. cbn [Nat.add].
  split_and!; [done..|]. exists warnings. split; [done|].
  intros ev. rewrite Hevs. unfold below. split.
  - intros (j & s & Hj & Hs & ->). rewrite miner_ids_lookup in Hj.
    case_decide; [|done]. injection Hj as Hj. by exists j, s.
  - intros (j & s & Hj & Hvar & Hs & ->). exists j, s.
    by rewrite miner_ids_lookup, decide_True, Hvar.
Qed.

Example environ_missing_1 :
  getenv {[ "MINER_ID_0" := "abc" ]} (miner_id_var 1) = None.
Proof. by vm_compute. Qed.

Lemma load_and_validate_first_missing_witness :
  let r := _load_and_validate_miner_ids {[ "MINER_ID_0" := "abc" ]} Sample.two_devices in
  result r = Raise (ValueError "Miner ID for GPU 1 not found in .env.") ∧
  final r = Sample.two_devices ∧
  ∃ warnings,
    emitted r = warnings ++ [EvPrint (MsgMinerIdMissing 1)] ∧
    ∀ ev, In ev warnings ↔
      ∃ j s, (j < 1)%nat ∧
             getenv {[ "MINER_ID_0" := "abc" ]} (miner_id_var j) = Some s ∧
             String.prefix "0x" s = false ∧ ev = EvPrint (MsgMinerIdPrefix s j).
Proof.
  apply (load_and_validate_first_missing {[ "MINER_ID_0" := "abc" ]} Sample.two_devices 1).
  - vm_compute. lia.
  - by vm_compute.
  - intros [|j] Hj; [by vm_compute; eexists|lia].
Defined.

Lemma truthy_id_Some (x : option string) (s : string) :
  truthy_id x = Some s ↔ x = Some s ∧ s ≠ "".
Proof.
  unfold truthy_id. destruct x as [s'|]; [|naive_solver].
  destruct (String.eqb_spec s' ""); naive_solver.
Qed.

(** Validation returns only when every id is set. *)
Lemma validate_miner_ids_returns (ids : list (option string)) (i : nat) (c : Config) :
  result (validate_miner_ids ids i c) = Ret tt → Forall is_Some ids.
Proof.
  intros Hret. destruct (decide (Forall is_Some ids)) as [|Hmissing]; [done|].
  destruct (validate_miner_ids_missing ids i c Hmissing) as (k & evs & _ & Hrun).
  rewrite Hrun in Hret. discriminate.
Qed.

(** X2. The constructor does not check the device index against the
    device count.  With every id set and an index at or above the count:
    for a count of 0 or above 1 construction fails with [IndexError], and
    for a count of 1 the index is ignored and the device is built exactly
    like device 0. *)
Theorem MinerConfig_init_index_out_of_range (environ : gmap string string) (i : nat)
    (c : Config) :
  (num_cuda_devices c ≤ i)%nat →
  (∀ j, (j < num_cuda_devices c)%nat → is_Some (getenv environ (miner_id_var j))) →
  let r := MinerConfig_init environ i c in
  if decide (num_cuda_devices c = 1%nat)
  then r = MinerConfig_init environ 0 c
  else result r = Raise IndexError ∧ final r = c.
Proof.
  intros Hi Hall. cbn zeta.
  destruct (validate_miner_ids_all_set
              ((λ i, getenv environ (miner_id_var i)) <$> seq 0 (num_cuda_devices c)) 0 c)
    as (evs & Hrun & _); [by apply miner_ids_all_set|].
  unfold MinerConfig_init, _load_and_validate_miner_ids, _assign_miner_id, py_index.
  run_monad. rewrite Hrun. cbn [result final emitted app].
  rewrite !miner_ids_lookup.
  case_decide as Hone.
  - rewrite Hone. by cbn [Nat.ltb Nat.leb].
  - rewrite (decide_False (P := (i < num_cuda_devices c)%nat)) by lia.
    destruct (Nat.ltb_spec 1 (num_cuda_devices c)); cbn [result final emitted app]; [done|].
    by rewrite decide_False by lia.
Qed.

Lemma MinerConfig_init_index_out_of_range_witness :
  result (MinerConfig_init Sample.environ_two 2 Sample.two_devices) = Raise IndexError ∧
  final (MinerConfig_init Sample.environ_two 2 Sample.two_devices) = Sample.two_devices.
Proof.
  apply (MinerConfig_init_index_out_of_range Sample.environ_two 2 Sample.two_devices).
  - vm_compute. lia.
  - intros [|[|j]] Hj; [by vm_compute; eexists..|]. vm_compute in Hj. lia.
Defined.

(** X3. A constructor that returns has changed nothing but [miner_id],
    and the [miner_id] it leaves is not empty and is the value of
    [MINER_ID_i] or of [MINER_ID_0]. *)
Theorem MinerConfig_init_identity (environ : gmap string string) (i : nat) (c : Config) :
  let r := MinerConfig_init environ i c in
  result r = Ret tt →
  ∃ s, s ≠ "" ∧ miner_id (final r) = s ∧ final r = set_miner_id s c ∧
       (getenv environ (miner_id_var i) = Some s ∨
        getenv environ (miner_id_var 0) = Some s).
Proof.
  cbn zeta.
  unfold MinerConfig_init, _load_and_validate_miner_ids, _assign_miner_id, py_index.
  run_monad.
  pose proof (validate_miner_ids_returns
    ((λ i, getenv environ (miner_id_var i)) <$> seq 0 (num_cuda_devices c)) 0 c) as Hall.
  destruct (validate_miner_ids _ 0 c) as [[[]|e] c1 evs] eqn:Hrun;
    cbn [result final emitted app] in *; [|discriminate].
  destruct (validate_miner_ids_all_set _ 0 c (Hall eq_refl)) as (evs' & Hrun' & _).
  assert (c1 = c) as -> by congruence.
  rewrite !miner_ids_lookup.
  destruct (1 <? num_cuda_devices c)%nat; cbn [result final emitted app].
  - case_decide; cbn [result final emitted app]; [|discriminate].
    destruct (truthy_id (getenv environ (miner_id_var i))) as [s|] eqn:Hown;
      cbn [result final emitted app].
    + intros _. apply truthy_id_Some in Hown as [Hown Hne]. exists s. eauto 6.
    + case_decide; cbn [result final emitted app]; [|discriminate].
      destruct (truthy_id (getenv environ (miner_id_var 0))) as [s|] eqn:Hfirst;
        cbn [result final emitted app]; [|discriminate].
      intros _. apply truthy_id_Some in Hfirst as [Hfirst Hne]. exists s. eauto 6.
  - case_decide; cbn [result final emitted app]; [|discriminate].
    destruct (truthy_id (getenv environ (miner_id_var 0))) as [s|] eqn:Hfirst;
      cbn [result final emitted app]; [|discriminate].
    intros _. apply truthy_id_Some in Hfirst as [Hfirst Hne]. exists s. eauto 6.
Qed.

Lemma MinerConfig_init_identity_witness :
  ∃ s, s ≠ "" ∧
       miner_id (final (MinerConfig_init Sample.environ_empty_id 1 Sample.two_devices)) = s ∧
       final (MinerConfig_init Sample.environ_empty_id 1 Sample.two_devices) =
         set_miner_id s Sample.two_devices ∧
       (getenv Sample.environ_empty_id (miner_id_var 1) = Some s ∨
        getenv Sample.environ_empty_id (miner_id_var 0) = Some s).
Proof.
  apply (MinerConfig_init_identity Sample.environ_empty_id 1 Sample.two_devices).
  by vm_compute.
Defined.



(** ** Strings *)

Lemma run_of_S (ch : Ascii.ascii) (n : nat) (t : string) :
  run_of ch (S n) +:+ t = String ch (run_of ch n +:+ t).
Proof. reflexivity. Qed.

Lemma lstrip_spec (ch : Ascii.ascii) (s : string) :
  ∃ n, s = run_of ch n +:+ Str.lstrip ch s ∧
       ∀ t, Str.lstrip ch s ≠ String ch t.
Proof.
  induction s as [|a s (n & Hs & Hhead)]; [by exists 0%nat|].
  cbn [Str.lstrip]. destruct (Ascii.eqb_spec a ch) as [->|Hne].
  - exists (S n). split; [by rewrite run_of_S, <- Hs|done].
  - exists 0%nat. split; [done|]. intros t [= ? _]. congruence.
Qed.

Lemma rstrip_spec (ch : Ascii.ascii) (s : string) :
  ∃ m, s = Str.rstrip ch s +:+ run_of ch m ∧
       ∀ t, Str.rstrip ch s ≠ t +:+ String ch "".
Proof.
  induction s as [|a s (m & Hs & Hlast)].
  { exists 0%nat. split; [done|]. by intros [|]. }
  cbn [Str.rstrip]. destruct (Str.rstrip ch s) as [|b t0] eqn:Hr.
  - change (s = run_of ch m) in Hs. destruct (Ascii.eqb_spec a ch) as [->|Hne].
    + exists (S m). split; [|by intros [|]].
      change (String ch s = String ch (run_of ch m)). by rewrite <- Hs.
    + exists m. split.
      * change (String a s = String a (run_of ch m)). by rewrite <- Hs.
      * intros [|a' t'].
        -- change (String a "" ≠ String ch ""). congruence.
        -- change (String a "" ≠ String a' (t' +:+ String ch "")).
           intros [= _ Ht]. by destruct t'.
  - exists m. split.
    + change (String a s = String a (String b t0 +:+ run_of ch m)). by rewrite <- Hs.
    + intros [|a' t'].
      * change (String a (String b t0) ≠ String ch ""). congruence.
      * change (String a (String b t0) ≠ String a' (t' +:+ String ch "")).
        intros [= _ Ht]. by apply (Hlast t').
Qed.

(** [s.strip(ch)] removes a run of [ch] at each end of [s] and nothing
    else, and what it leaves neither starts nor ends with [ch]. *)
Lemma strip_spec (ch : Ascii.ascii) (s : string) :
  (∃ n m, s = run_of ch n +:+ Str.strip ch s
              +:+ run_of ch m) ∧
  (∀ t, Str.strip ch s ≠ String ch t) ∧
  (∀ t, Str.strip ch s ≠ t +:+ String ch "").
Proof.
  unfold Str.strip.
  destruct (lstrip_spec ch s) as (n & Hl & Hhead).
  destruct (rstrip_spec ch (Str.lstrip ch s)) as (m & Hr & Hlast).
  split_and!.
  - exists n, m. rewrite <- Hr. exact Hl.
  - intros t Ht.
    destruct (Str.lstrip ch s) as [|b u] eqn:Hu; [done|].
    destruct (Ascii.eqb_spec b ch) as [->|Hne]; [by apply (Hhead u)|].
    cbn [Str.rstrip] in Ht.
    destruct (Str.rstrip ch u); [destruct (Ascii.eqb b ch)|]; congruence.
  - exact Hlast.
Qed.

(** X5. The warning of the coordinator never makes the request fail: the
    [IndexError] of [split(...)[1]] cannot arise.  One line is printed
    exactly when the response is truthy and its text contains ["Warning:"],
    and the text printed neither starts nor ends with a double quote. *)
Theorem surface_warning_spec (response : option Response) (c : Config) :
  let r := surface_warning response c in
  result r = Ret tt ∧ final r = c ∧ (length (emitted r) ≤ 1)%nat ∧
  (emitted r ≠ [] ↔
     ∃ r0, response = Some r0 ∧ response_ok r0 = true ∧
           Str.contains "Warning:" (text r0) = true) ∧
  (∀ ev, In ev (emitted r) →
     ∃ w, ev = EvPrint (MsgWarning w) ∧
          (∀ t, w ≠ String Str.dquote t) ∧ (∀ t, w ≠ t +:+ String Str.dquote "")).
Proof.
  cbn zeta. unfold surface_warning.
  destruct response as [r0|]; [|cbn; split_and!; [done|done|lia|naive_solver|done]].
  destruct (response_ok r0 && Str.contains "Warning:" (text r0)) eqn:E.
  - apply andb_true_iff in E as [Hok Hcontains].
    destruct (contains_split_1 _ _ Hcontains) as [piece ->]. cbn.
    split_and!; [done|done|lia|naive_solver|].
    intros ev [<-|[]]. eexists. split; [done|].
    destruct (strip_spec Str.dquote piece) as (_ & Hhead & Hlast). by split.
  - cbn. split_and!; [done|done|lia| |done].
    split; [done|]. intros (r1 & [= <-] & Hok & Hcontains).
    by rewrite Hok, Hcontains in E.
Qed.

(** ** The request *)

(** The test of line 83 on data that no [in] applies to. *)
Lemma announce_job_not_a_container (data : pyval) (c : Config) (e : exn) :
  truthy data = true →
  py_contains "job_id" data = Raise e →
  announce_job data c = Run (Raise e) c [] ∧ is_Exception e = true.
Proof.
  intros Htruthy He. unfold announce_job. run_monad. rewrite Htruthy, He. cbn.
  split; [done|]. destruct data; cbn in He; try discriminate; by injection He as <-.
Qed.

(** How [send_miner_request] ends, read off its two collaborators. *)
Lemma send_miner_request_outcome (a : Answers) (model_id : pyval) (deadline : Z)
    (c : Config) :
  result (send_miner_request a model_id deadline c) =
  match job_response a with
  | Raise e => Raise e
  | Ret _ =>
      match response_data a with
      | Raise e => Raise e
      | Ret data => Ret (data, time_end a - time_start a)
      end
  end.
Proof.
  unfold send_miner_request, post_request. run_monad.
  destruct (60 <=? time_heartbeat_test a - last_heartbeat c);
    cbn [result final emitted app].
  all: destruct (job_response a) as [resp|e]; cbn [result final emitted app]; [|done].
  all: match goal with |- context [surface_warning ?x ?c'] =>
         destruct (surface_warning_run x c') as (evs & -> & _) end.
  all: destruct (response_data a) as [data|e]; cbn [result final emitted app]; [|done].
  all: match goal with |- context [announce_job ?x ?c'] =>
         destruct (announce_job_run x c') as ([[]|e] & evs' & -> & _ & He) end.
  all: try rewrite (He e eq_refl); done.
Qed.

(** X6. [send_miner_request] raises exactly when [post_request] or
    [log_response] raises.  Otherwise it returns the data of
    [log_response] with the latency [end_time - start_time], also when the
    data is not a container: the [TypeError] of the test of line 83 is
    caught and logged. *)
Theorem send_miner_request_result (a : Answers) (model_id : pyval) (deadline : Z)
    (c : Config) :
  let r := send_miner_request a model_id deadline c in
  (∀ e, result r = Raise e ↔
        job_response a = Raise e ∨
        ((∃ resp, job_response a = Ret resp) ∧ response_data a = Raise e)) ∧
  (∀ resp data, job_response a = Ret resp → response_data a = Ret data →
     result r = Ret (data, time_end a - time_start a) ∧
     ∀ e, truthy data = true → py_contains "job_id" data = Raise e →
          In (EvLog ERROR (MsgBadResponseData e)) (emitted r)).
Proof.
  cbn zeta. pose proof (send_miner_request_outcome a model_id deadline c) as Hout.
  split.
  - intros e. rewrite Hout.
    destruct (job_response a) as [resp|e1]; [destruct (response_data a) as [data|e2]|];
      naive_solver.
  - intros resp data Hresp Hdata. rewrite Hout, Hresp, Hdata. split; [done|].
    intros e Htruthy He.
    unfold send_miner_request, post_request. run_monad.
    destruct (60 <=? time_heartbeat_test a - last_heartbeat c);
      cbn [result final emitted app]; rewrite Hresp; cbn [result final emitted app].
    all: match goal with |- context [surface_warning ?x ?c'] =>
           destruct (surface_warning_run x c') as (evs & -> & _) end.
    all: rewrite Hdata; cbn [result final emitted app].
    all: match goal with |- context [announce_job ?x ?c'] =>
           destruct (announce_job_not_a_container x c' e Htruthy He) as [? ?] end.
    all: match goal with H : announce_job _ _ = _ |- _ =>
           rewrite H; cbn [result final emitted app] end.
    all: match goal with H : is_Exception _ = true |- _ => rewrite H end.
    all: cbn [result final emitted app In]; rewrite ?in_app_iff; cbn [In]; tauto.
Qed.

(** X7. After a request that carried the heartbeat, a request made less
    than 60 seconds after the clock reading stored in [last_heartbeat]
    carries neither [hardware] nor [version] and leaves the config as it
    found it. *)
Theorem heartbeat_spacing (a1 a2 : Answers) (model1 model2 : pyval) (deadline1 deadline2 : Z)
    (c : Config) :
  60 ≤ time_heartbeat_test a1 - last_heartbeat c →
  time_heartbeat_test a2 - time_heartbeat_set a1 < 60 →
  let c1 := final (send_miner_request a1 model1 deadline1 c) in
  let r2 := send_miner_request a2 model2 deadline2 c1 in
  last_heartbeat c1 = time_heartbeat_set a1 ∧
  final r2 = c1 ∧
  ∃ body,
    only is_post (emitted r2) =
      [EvPost (base_url c +:+ "/miner_request") body (miner_id c)] ∧
    body !! "hardware" = None ∧ body !! "version" = None.
Proof.
  intros Hstale Hfresh. cbn zeta.
  destruct (send_miner_request_run a1 model1 deadline1 c) as (o1 & rest1 & -> & _).
  cbn [final].
  destruct (Z.leb_spec 60 (time_heartbeat_test a1 - last_heartbeat c)) as [_|]; [|lia].
  set (c1 := set_last_heartbeat (time_heartbeat_set a1) c).
  destruct (send_miner_request_run a2 model2 deadline2 c1) as (o2 & rest2 & -> & Hrest & _).
  cbn [final emitted].
  destruct (Z.leb_spec 60 (time_heartbeat_test a2 - last_heartbeat c1)) as [Hdue|_].
  { cbn in Hdue. lia. }
  split_and!; [done..|].
  eexists. split_and!.
  - cbn [app]. rewrite only_cons_true by done.
    by rewrite (only_disjoint is_post about_response rest2); [|intros []|].
  - by simplify_map_eq.
  - by simplify_map_eq.
Qed.

Lemma heartbeat_spacing_witness :
  let c1 := final (send_miner_request (Sample.idle 1100) (VStr "m1") 3 Sample.config) in
  last_heartbeat c1 = 1100 ∧
  final (send_miner_request (Sample.idle 1130) (VStr "m1") 3 c1) = c1.
Proof.
  destruct (heartbeat_spacing (Sample.idle 1100) (Sample.idle 1130) (VStr "m1") (VStr "m1")
              3 3 Sample.config) as (Hset & Hsame & _).
  - vm_compute. discriminate.
  - by vm_compute.
  - by split.
Defined.

(** X8. When [process_jobs] returns [True], the request was answered with
    data that carries [job_id], [model_id] and [temp_credentials], and the
    last thing it did was its one call of [submit_job_result], with the
    miner id, the whole job, its credentials, the time read at line 127 and
    the latency of the request. *)
Theorem process_jobs_submission (a : Answers) (c : Config) :
  let r := process_jobs a c in
  result r = Ret true →
  ∃ job job_id model_id credentials before,
    response_data a = Ret job ∧
    py_getitem job "job_id" = Ret job_id ∧
    py_getitem job "model_id" = Ret model_id ∧
    py_getitem job "temp_credentials" = Ret credentials ∧
    submit_answer a = Ret tt ∧
    emitted r =
      before ++ [EvLog INFO (MsgProcessing job_id model_id);
                 EvSubmit (miner_id c) job credentials (time_job_start a)
                          (time_end a - time_start a)] ∧
    only is_submit before = [].
Proof.
  cbn zeta. intros Hret.
  destruct (decide (local_ids a = [])) as [Hids|Hids].
  { by rewrite (process_jobs_no_models a c Hids) in Hret. }
  set (model := first_or_None (loaded_models c)) in *.
  pose proof (send_miner_request_only is_submit a model (min_deadline c) c) as Hnone.
  destruct (send_miner_request_run a model (min_deadline c) c)
    as (o & rest & Hsend & _ & Ho).
  destruct o as [[job latency]|e].
  - rewrite (process_jobs_after_request a c _ job latency _ Hids Hsend) in Hret |- *.
    destruct Ho as (Hdata & -> & _).
    destruct (truthy job); [|discriminate].
    destruct (py_getitem job "job_id") as [job_id|] eqn:Hjob; [|discriminate].
    destruct (py_getitem job "model_id") as [model_id|] eqn:Hmodel; [|discriminate].
    destruct (py_getitem job "temp_credentials") as [credentials|] eqn:Hcred;
      [|discriminate].
    cbn [result emitted] in *.
    destruct (submit_answer a) as [[]|] eqn:Hsubmit; [|discriminate].
    rewrite Hsend in Hnone. cbn [emitted] in Hnone.
    exists job, job_id, model_id, credentials. eexists.
    split_and!; [done..| |].
    + f_equal. do 2 f_equal. by case_match.
    + apply Hnone. by intros [[]|[] []| | | | | | | | |].
  - by rewrite (process_jobs_request_raises a c _ e _ Hids Hsend) in Hret.
Qed.

Lemma process_jobs_submission_witness :
  submit_answer (Sample.with_data (VDict Sample.job) (Sample.idle 1010)) = Ret tt.
Proof.
  destruct (process_jobs_submission (Sample.with_data (VDict Sample.job) (Sample.idle 1010))
              Sample.config) as (job & job_id & model_id & credentials & before & _ & _ & _ & _ & Hsubmit & _).
  - by vm_compute.
  - exact Hsubmit.
Defined.

(** ** The reload check *)

(** X9. When the check is due and a 200 response signals a model that is
    in the local storage and not loaded, the check posts once to the signal
    endpoint, calls [reload_model] with that model, and, when the reload
    returns, leaves the loaded models as the reload left them, all else in
    the config untouched, and returns the current time. *)
Theorem check_and_reload_model_swaps (a : Answers) (last_signal_time : Z) (c : Config)
    (resp : Response) (body : dict) (s : string) (models : list string) :
  reload_interval c ≤ time_check a - last_signal_time →
  signal_response a = Ret (Some resp) →
  status_code resp = 200 →
  resp_json resp = Some body →
  body !! "model_id" = Some (VStr s) →
  s ∈ local_ids_check a →
  s ∉ loaded_models c →
  reload_answer a = Ret models →
  check_and_reload_model a last_signal_time c =
    Run (Ret (time_check a)) (set_loaded_models models c)
      [EvPost (signal_url c +:+ "/miner_signal")
         {[ "miner_id" := VStr (miner_id c);
            "options" := VDict {[ "exclude_sdxl" := VBool (exclude_sdxl c) ]} ]}
         (miner_id c);
       EvReload (VStr s)].
Proof.
  intros Hdue Hresp Hstatus Hjson Hid Hlocal Hloaded Hreload.
  assert (is_200 (Some resp) = Some resp) as H200 by (by apply is_200_Some).
  assert (member_of (VStr s) (local_ids_check a) = true) as Hin
    by (apply member_of_true; eauto).
  assert (member_of (VStr s) (loaded_models c) = false) as Hout
    by (by apply member_of_false).
  assert (py_get body "model_id" = VStr s) as Hget by (unfold py_get; by rewrite Hid).
  unfold check_and_reload_model, post_request, reload_model, json. run_monad.
  destruct (Z.leb_spec (reload_interval c) (time_check a - last_signal_time)); [|lia].
  rewrite Hresp. cbn [result final emitted app]. rewrite H200, Hjson.
  cbn [result final emitted app]. rewrite Hget, Hin, Hout, Hreload. cbn.
  by destruct (time_check a - time_check a <? reload_interval c).
Qed.

Lemma check_and_reload_model_swaps_witness :
  check_and_reload_model Sample.swap_to_m2 1000 Sample.config =
    Run (Ret 1700) (set_loaded_models ["m2"] Sample.config)
      [EvPost "https://signal/miner_signal"
         {[ "miner_id" := VStr "0x123";
            "options" := VDict {[ "exclude_sdxl" := VBool false ]} ]}
         "0x123";
       EvReload (VStr "m2")].
Proof.
  apply (check_and_reload_model_swaps Sample.swap_to_m2 1000 Sample.config
           (Sample.ok_response {[ "model_id" := VStr "m2" ]})
           {[ "model_id" := VStr "m2" ]} "m2" ["m2"]).
  - vm_compute. discriminate.
  - reflexivity.
  - reflexivity.
  - reflexivity.
  - by vm_compute.
  - compute_done.
  - compute_done.
  - reflexivity.
Defined.

(** X10. When the check is due and a 200 response signals a model that is
    already loaded, or that is not in the local storage, or no model at all,
    nothing is reloaded and nothing is logged: the one event is the request,
    the config is untouched, and the current time is returned. *)
Theorem check_and_reload_model_no_swap (a : Answers) (last_signal_time : Z) (c : Config)
    (resp : Response) (body : dict) :
  reload_interval c ≤ time_check a - last_signal_time →
  signal_response a = Ret (Some resp) →
  status_code resp = 200 →
  resp_json resp = Some body →
  (∀ s, body !! "model_id" = Some (VStr s) →
        s ∉ local_ids_check a ∨ s ∈ loaded_models c) →
  check_and_reload_model a last_signal_time c =
    Run (Ret (time_check a)) c
      [EvPost (signal_url c +:+ "/miner_signal")
         {[ "miner_id" := VStr (miner_id c);
            "options" := VDict {[ "exclude_sdxl" := VBool (exclude_sdxl c) ]} ]}
         (miner_id c)].
Proof.
  intros Hdue Hresp Hstatus Hjson Hid.
  assert (is_200 (Some resp) = Some resp) as H200 by (by apply is_200_Some).
  assert (member_of (py_get body "model_id") (local_ids_check a)
          && negb (member_of (py_get body "model_id") (loaded_models c)) = false) as Hno.
  { apply not_true_is_false. intros Hyes.
    apply andb_true_iff in Hyes as [Hin Hout].
    apply member_of_true in Hin as (s & Hs & Hin). rewrite Hs in Hout.
    apply negb_true_iff, member_of_false in Hout.
    unfold py_get in Hs. destruct (body !! "model_id") as [v|] eqn:Hv; [|done].
    cbn in Hs. subst v. destruct (Hid s eq_refl); done. }
  unfold check_and_reload_model, post_request, json. run_monad.
  destruct (Z.leb_spec (reload_interval c) (time_check a - last_signal_time)); [|lia].
  rewrite Hresp. cbn [result final emitted app]. rewrite H200, Hjson.
  cbn [result final emitted app]. rewrite Hno. cbn [result final emitted app].
  by destruct (Z.ltb_spec (time_check a - last_signal_time) (reload_interval c)); [lia|].
Qed.

Lemma check_and_reload_model_no_swap_witness :
  check_and_reload_model (Sample.idle 1700) 1000 Sample.config =
    Run (Ret 1700) Sample.config
      [EvPost "https://signal/miner_signal"
         {[ "miner_id" := VStr "0x123";
            "options" := VDict {[ "exclude_sdxl" := VBool false ]} ]}
         "0x123"].
Proof.
  apply (check_and_reload_model_no_swap (Sample.idle 1700) 1000 Sample.config
           (Sample.ok_response {[ "model_id" := VStr "m1" ]})
           {[ "model_id" := VStr "m1" ]}).
  - vm_compute. discriminate.
  - reflexivity.
  - reflexivity.
  - reflexivity.
  - intros s Hs. right. vm_compute in Hs. injection Hs as <-.
    compute_done.
Defined.

(** X11. A check that was due and returned opens a new window: whatever it
    did, the time it returns throttles every later check made less than
    [reload_interval] after it, which then does nothing. *)
Theorem check_and_reload_model_window (a a' : Answers) (last_signal_time t : Z)
    (c c' : Config) :
  reload_interval c ≤ time_check a - last_signal_time →
  result (check_and_reload_model a last_signal_time c) = Ret t →
  reload_interval c' = reload_interval c →
  time_check a' - time_check a < reload_interval c →
  t = time_check a ∧
  check_and_reload_model a' t c' = Run (Ret t) c' [].
Proof.
  intros Hdue Hret Hsame Hearly.
  apply check_and_reload_model_returns in Hret.
  destruct (Z.leb_spec (reload_interval c) (time_check a - last_signal_time)); [|lia].
  subst t. split; [done|].
  apply check_and_reload_model_throttled. lia.
Qed.

Lemma check_and_reload_model_window_witness :
  check_and_reload_model (Sample.idle 2000) 1700 Sample.config =
    Run (Ret 1700) Sample.config [].
Proof.
  apply (check_and_reload_model_window Sample.signal_down (Sample.idle 2000) 1000 1700
           Sample.config Sample.config).
  - vm_compute. discriminate.
  - by vm_compute.
  - reflexivity.
  - by vm_compute.
Defined.

(** ** The turns of the loop *)

(** The config a turn leaves is the one lines 148-149 left. *)
Lemma iteration_final (a : Answers) (last_signal_time : Z) (c : Config) :
  final (iteration a last_signal_time c) = final (try_block a last_signal_time c).
Proof.
  pose proof (iteration_run a last_signal_time c) as Hrun. cbn zeta in Hrun.
  destruct (result (try_block a last_signal_time c)) as [[t []]|e].
  - by rewrite Hrun.
  - by rewrite Hrun.
  - destruct (is_Exception e); [destruct Hrun as [t ->]|rewrite Hrun]; done.
Qed.

(** The events of a turn are those of lines 148-149, then at most the
    error log and the sleep. *)
Lemma iteration_events (a : Answers) (last_signal_time : Z) (c : Config) :
  ∃ tail,
    emitted (iteration a last_signal_time c) =
      emitted (try_block a last_signal_time c) ++ tail ∧
    Forall (λ ev, match ev with
                  | EvLog ERROR (MsgErrorOccurred _) | EvSleep _ => True
                  | _ => False
                  end) tail.
Proof.
  pose proof (iteration_run a last_signal_time c) as Hrun. cbn zeta in Hrun.
  destruct (result (try_block a last_signal_time c)) as [[t []]|e].
  - rewrite Hrun. exists []. by rewrite app_nil_r.
  - rewrite Hrun. eexists. split; [done|]. by repeat constructor.
  - destruct (is_Exception e); [destruct Hrun as [t ->]|rewrite Hrun]; cbn [emitted].
    + eexists. split; [done|]. by repeat constructor.
    + exists []. by rewrite app_nil_r.
Qed.

(** X12. The loop never writes the settings of the config: after any
    number of turns the miner id, the two URLs, the reload interval, the
    sleep duration, the minimum deadline, the device count, the exclusion
    flag and the version are those it started with. *)
Theorem main_loop_keeps_settings (fuel : nat) (script : nat → Answers) (i : nat)
    (last_signal_time : Z) (c : Config) :
  same_settings c (final (main_loop fuel script i last_signal_time c)).
Proof.
  revert i last_signal_time c. induction fuel as [|fuel IH]; intros i t c.
  { apply same_settings_refl. }
  pose proof (try_block_frame (script i) t c) as Hturn.
  rewrite <- iteration_final in Hturn.
  destruct (result (iteration (script i) t c)) as [t'|e] eqn:Hres.
  - rewrite (main_loop_step fuel script i t t' c Hres). cbn [final].
    eapply same_settings_trans; [exact Hturn|apply IH].
  - by rewrite (main_loop_stop fuel script i t c e Hres).
Qed.

Lemma worker_request_settings (c c' : Config) (ev : event) :
  same_settings c c' → worker_request c' ev → worker_request c ev.
Proof.
  intros (Hm & Hb & Hs & _) (url & body & -> & Hbody & Hurl).
  exists url, body. rewrite <- Hm, <- Hs, <- Hb. done.
Qed.

(** Lines 148-149 run the check and, when it returns, [process_jobs] on the
    config the check left. *)
Lemma try_block_split (a : Answers) (last_signal_time : Z) (c : Config) :
  let check := check_and_reload_model a last_signal_time c in
  emitted (try_block a last_signal_time c) =
    emitted check ++
    match result check with
    | Ret _ => emitted (process_jobs a (final check))
    | Raise _ => []
    end.
Proof.
  cbn zeta. unfold try_block. run_monad.
  destruct (check_and_reload_model a last_signal_time c) as [[t|e] c1 evs1];
    cbn [result final emitted]; [|by rewrite app_nil_r].
  destruct (process_jobs a c1) as [[executed|e] c2 evs2]; cbn [emitted];
    by rewrite ?app_nil_r.
Qed.

Lemma check_and_reload_model_requests (a : Answers) (last_signal_time : Z) (c : Config)
    (ev : event) :
  In ev (emitted (check_and_reload_model a last_signal_time c)) →
  is_post ev = true → worker_request c ev.
Proof.
  unfold check_and_reload_model, post_request, reload_model, json. run_monad.
  split_run; cbn [In]; intros Hin Hpost; destruct_or?; subst; try done.
  all: do 2 eexists; split_and!; [done|by simplify_map_eq|by left].
Qed.

Lemma process_jobs_requests (a : Answers) (c : Config) (ev : event) :
  In ev (emitted (process_jobs a c)) →
  is_post ev = true → worker_request c ev.
Proof.
  destruct (decide (local_ids a = [])) as [Hids|Hids].
  { rewrite (process_jobs_no_models a c Hids). intros [<-|[]]. done. }
  destruct (process_jobs_shape a c Hids) as (tail & -> & _ & Htail).
  destruct (send_miner_request_run a (first_or_None (loaded_models c)) (min_deadline c) c)
    as (o & rest & -> & Hrest & _).
  cbn [emitted]. rewrite !in_app_iff. cbn [In]. rewrite Forall_forall in Hrest, Htail.
  intros [[Hin|[<-|Hin]]|Hin] Hpost.
  - case_match; [destruct Hin as [<-|[]]|]; done.
  - do 2 eexists. split_and!; [done| |by right]. case_match; by simplify_map_eq.
  - apply list_elem_of_In, Hrest in Hin. by destruct ev as [[]|[] []| | | | | | | | |].
  - apply list_elem_of_In, Htail in Hin. by destruct ev as [[]|[] []| | | | | | | | |].
Qed.

Lemma iteration_requests (a : Answers) (last_signal_time : Z) (c : Config) (ev : event) :
  In ev (emitted (iteration a last_signal_time c)) →
  is_post ev = true → worker_request c ev.
Proof.
  destruct (iteration_events a last_signal_time c) as (tail & -> & Htail).
  rewrite try_block_split. cbn zeta. rewrite !in_app_iff.
  pose proof (check_and_reload_model_frame a last_signal_time c) as Hframe.
  cbn zeta in Hframe.
  intros [[Hin|Hin]|Hin] Hpost.
  - by eapply check_and_reload_model_requests.
  - destruct (result (check_and_reload_model a last_signal_time c)); [|done].
    apply process_jobs_requests in Hin; [|done].
    eapply worker_request_settings; [|exact Hin].
    destruct Hframe as [->|[models ->]]; by repeat split.
  - rewrite Forall_forall in Htail. apply list_elem_of_In, Htail in Hin.
    by destruct ev as [[]|[] []| | | | | | | | |].
Qed.

(** Every request the loop posts goes to the signal endpoint or to the job
    endpoint of the config it started with, and names the miner id of that
    config, in the call and in the body. *)
Lemma main_loop_requests (fuel : nat) (script : nat → Answers) (i : nat)
    (last_signal_time : Z) (c : Config) (ev : event) :
  In ev (emitted (main_loop fuel script i last_signal_time c)) →
  is_post ev = true →
  worker_request c ev.
Proof.
  revert i last_signal_time c. induction fuel as [|fuel IH]; intros i t c; [done|].
  pose proof (try_block_frame (script i) t c) as Hturn.
  rewrite <- iteration_final in Hturn.
  destruct (result (iteration (script i) t c)) as [t'|e] eqn:Hres.
  - rewrite (main_loop_step fuel script i t t' c Hres). cbn [emitted].
    rewrite in_app_iff. intros [Hin|Hin] Hpost.
    + by eapply iteration_requests.
    + eapply worker_request_settings; [exact Hturn|]. by eapply IH.
  - rewrite (main_loop_stop fuel script i t c e Hres). cbn [emitted].
    apply iteration_requests.
Qed.

(** X14. An [Exception] raised by the reload check is caught by the turn,
    which then posts no job request: the turn logs the error and calls the
    sleep.  When [sleep_duration] is not negative it hands the next turn
    the time of the last check unchanged, so that a check that was due is
    due again; when it is negative the sleep raises [ValueError] and the
    turn ends the worker. *)
Theorem iteration_check_raises (a : Answers) (last_signal_time : Z) (c : Config)
    (e : exn) :
  let check := check_and_reload_model a last_signal_time c in
  result check = Raise e →
  is_Exception e = true →
  iteration a last_signal_time c =
    Run (if sleep_duration c <? 0
         then Raise (ValueError "sleep length must be non-negative")
         else Ret last_signal_time)
      (final check)
      (emitted check ++ [EvLog ERROR (MsgErrorOccurred e);
                         EvSleep (sleep_duration c)]).
Proof.
  cbn zeta. intros Hraise Hexn.
  pose proof (check_and_reload_model_frame a last_signal_time c) as Hframe.
  cbn zeta in Hframe.
  unfold iteration, log_error, idle_sleep. run_monad.
  destruct (check_and_reload_model a last_signal_time c) as [o c1 evs1].
  cbn [result final emitted] in *. subst o. rewrite Hexn.
  assert (sleep_duration c1 = sleep_duration c) as ->
    by (destruct Hframe as [->|[models ->]]; done).
  by destruct (sleep_duration c <? 0).
Qed.

Lemma iteration_check_raises_witness :
  iteration (Sample.with_signal_response (Raise (RuntimeError "timeout")) (Sample.idle 1700))
    1000 Sample.config =
    Run (Ret 1000) Sample.config
      [EvPost "https://signal/miner_signal"
         {[ "miner_id" := VStr "0x123";
            "options" := VDict {[ "exclude_sdxl" := VBool false ]} ]}
         "0x123";
       EvLog ERROR (MsgErrorOccurred (RuntimeError "timeout"));
       EvSleep 5].
Proof.
  apply (iteration_check_raises
           (Sample.with_signal_response (Raise (RuntimeError "timeout")) (Sample.idle 1700))
           1000 Sample.config (RuntimeError "timeout")).
  - by vm_compute.
  - reflexivity.
Defined.

(** X15. The job request follows the reload check of its turn and asks
    for the model the check left loaded: when the check returns and the
    local storage is not empty, the requests of the turn are those of the
    check followed by one job request, whose [model_id] is the first of the
    loaded models after the check, or [None] when there is none. *)
Theorem job_request_follows_check (a : Answers) (last_signal_time t : Z) (c : Config) :
  let check := check_and_reload_model a last_signal_time c in
  result check = Ret t →
  local_ids a ≠ [] →
  ∃ body,
    only is_post (emitted (iteration a last_signal_time c)) =
      only is_post (emitted check) ++
      [EvPost (base_url c +:+ "/miner_request") body (miner_id c)] ∧
    body !! "model_id" = Some (first_or_None (loaded_models (final check))).
Proof.
  cbn zeta. intros Hret Hids.
  destruct (iteration_events a last_signal_time c) as (tail & -> & Htail).
  rewrite try_block_split. cbn zeta. rewrite Hret.
  pose proof (check_and_reload_model_frame a last_signal_time c) as Hframe.
  cbn zeta in Hframe.
  set (c1 := final (check_and_reload_model a last_signal_time c)) in *.
  assert (base_url c1 = base_url c ∧ miner_id c1 = miner_id c) as [Hurl Hminer]
    by (destruct Hframe as [->|[models ->]]; done).
  destruct (process_jobs_shape a c1 Hids) as (tail' & -> & _ & Htail').
  destruct (send_miner_request_run a (first_or_None (loaded_models c1)) (min_deadline c1) c1)
    as (o & rest & -> & Hrest & _).
  cbn [emitted]. rewrite !only_app, (only_cons_true is_post) by done.
  rewrite (only_disjoint is_post about_response rest); [|by intros []|done].
  rewrite (only_disjoint is_post of_job tail'); [|by intros [|[] []| | | | | | | | |]|done].
  rewrite (only_disjoint is_post
             (λ ev, match ev with
                    | EvLog ERROR (MsgErrorOccurred _) | EvSleep _ => true
                    | _ => false
                    end) tail).
  2: { by intros [|[] []| | | | | | | | |]. }
  2: { eapply Forall_impl; [exact Htail|]. by intros [|[] []| | | | | | | | |]. }
  rewrite Hurl, Hminer, !app_nil_r.
  destruct (60 <=? time_heartbeat_test a - last_heartbeat c1);
    (eexists; split; [reflexivity|by simplify_map_eq]).
Qed.

Lemma job_request_follows_check_witness :
  ∃ body,
    only is_post (emitted (iteration Sample.swap_to_m2 1000 Sample.config)) =
      only is_post (emitted (check_and_reload_model Sample.swap_to_m2 1000 Sample.config)) ++
      [EvPost "https://coordinator/miner_request" body "0x123"] ∧
    body !! "model_id" = Some (VStr "m2").
Proof.
  apply (job_request_follows_check Sample.swap_to_m2 1000 1700 Sample.config).
  - by vm_compute.
  - vm_compute. discriminate.
Defined.

(** X16. The empty local storage ends the worker in the first turn whose
    check returns, throttled or not: the turn raises [SystemExit(0)] right
    after the check, with no job request, no error log and no sleep. *)
Theorem iteration_exits_without_models (a : Answers) (last_signal_time t : Z)
    (c : Config) :
  let check := check_and_reload_model a last_signal_time c in
  result check = Ret t →
  local_ids a = [] →
  iteration a last_signal_time c =
    Run (Raise (SystemExit 0)) (final check)
      (emitted check ++ [EvLog DEBUG MsgNoModels]).
Proof.
  cbn zeta. intros Hret Hids. unfold iteration. run_monad.
  destruct (check_and_reload_model a last_signal_time c) as [o c1 evs1].
  cbn [result final emitted] in *. subst o.
  by rewrite (process_jobs_no_models a c1 Hids).
Qed.

Lemma iteration_exits_without_models_witness :
  iteration (Sample.with_local_ids [] Sample.signal_down) 1000 Sample.config =
    Run (Raise (SystemExit 0)) Sample.config
      [EvPost "https://signal/miner_signal"
         {[ "miner_id" := VStr "0x123";
            "options" := VDict {[ "exclude_sdxl" := VBool false ]} ]}
         "0x123";
       EvLog ERROR (MsgSignalFailed "0x123");
       EvLog DEBUG MsgNoModels].
Proof.
  apply (iteration_exits_without_models (Sample.with_local_ids [] Sample.signal_down)
           1000 1700 Sample.config).
  - by vm_compute.
  - reflexivity.
Defined.

(** X17. How the loop can end.  When it ends, it is with [SystemExit(0)]
    in a turn whose local storage was empty, or with an exception that is
    not an [Exception] raised inside a collaborator of one of its turns, or,
    only for a negative [sleep_duration], with the [ValueError] of the sleep
    of line 154.  With a [sleep_duration] that is not negative the loop
    never ends with an [Exception]. *)
Theorem main_loop_ends (fuel : nat) (script : nat → Answers) (i : nat)
    (last_signal_time : Z) (c : Config) (e : exn) :
  result (main_loop fuel script i last_signal_time c) = Raise e →
  (is_Exception e = false ∧
   ∃ k, (i ≤ k < i + fuel)%nat ∧
        ((e = SystemExit 0 ∧ local_ids (script k) = []) ∨
         collaborator_raises (script k) e)) ∨
  (sleep_duration c < 0 ∧ e = ValueError "sleep length must be non-negative").
Proof.
  revert i last_signal_time c. induction fuel as [|fuel IH]; intros i t c; [done|].
  destruct (try_block_frame (script i) t c) as (_ & _ & _ & _ & Hsleep & _).
  destruct (result (iteration (script i) t c)) as [t'|e'] eqn:Hres.
  - rewrite (main_loop_step fuel script i t t' c Hres). cbn [result]. intros Hend.
    destruct (IH _ _ _ Hend) as [(Hexn & k & Hk & Hwhy)|[Hneg ->]].
    + left. split; [done|]. exists k. split; [lia|done].
    + right. split; [|done]. by rewrite iteration_final, Hsleep in Hneg.
  - rewrite (main_loop_stop fuel script i t c e' Hres). cbn [result]. intros [= ->].
    pose proof (iteration_run (script i) t c) as Hrun. cbn zeta in Hrun.
    unfold after_sleep in Hrun. rewrite Hsleep in Hrun.
    destruct (result (try_block (script i) t c)) as [[t' []]|e'] eqn:Hbody.
    + rewrite Hrun in Hres. discriminate.
    + rewrite Hrun in Hres. cbn [result] in Hres.
      destruct (Z.ltb_spec (sleep_duration c) 0); [|discriminate].
      injection Hres as <-. by right.
    + destruct (is_Exception e') eqn:Hexn.
      * destruct Hrun as [t' Hrun]. rewrite Hrun in Hres. cbn [result] in Hres.
        destruct (Z.ltb_spec (sleep_duration c) 0); [|discriminate].
        injection Hres as <-. by right.
      * rewrite Hrun in Hres. injection Hres as ->. left. split; [done|].
        exists i. split; [lia|].
        destruct (try_block_raises (script i) t c e Hbody) as [?|[?|?]];
          [by left|by right|congruence].
Qed.

Lemma main_loop_ends_witness :
  (is_Exception (ValueError "sleep length must be non-negative") = false ∧
   ∃ k, (0 ≤ k < 0 + 3)%nat ∧
        ((ValueError "sleep length must be non-negative" = SystemExit 0 ∧
          local_ids (Sample.idle 1010) = []) ∨
         collaborator_raises (Sample.idle 1010)
           (ValueError "sleep length must be non-negative"))) ∨
  (sleep_duration Sample.negative_sleep < 0 ∧
   ValueError "sleep length must be non-negative" =
   ValueError "sleep length must be non-negative").
Proof.
  apply (main_loop_ends 3 (λ _, Sample.idle 1010) 0 1000 Sample.negative_sleep
           (ValueError "sleep length must be non-negative")).
  by vm_compute.
Defined.

(** ** main and the supervisor *)

(** X13. A worker posts nothing before its setup is complete, and then
    only in the name of the identity its constructor assigned: when
    [load_config] returns, every request of [main] goes to the signal
    endpoint or to the job endpoint of the loaded config and names its miner
    id, in the call and in the body. *)
Theorem main_requests (h : Host) (cuda_device_id fuel : nat) (ev : event) :
  let loaded := load_config h cuda_device_id (base_config h cuda_device_id) in
  result loaded = Ret tt →
  In ev (emitted (main h cuda_device_id fuel)) →
  is_post ev = true →
  worker_request (final loaded) ev.
Proof.
  cbn zeta. intros Hloaded.
  pose proof (load_config_prints h cuda_device_id (base_config h cuda_device_id)) as Hprints.
  unfold main. run_monad.
  destruct (load_config h cuda_device_id (base_config h cuda_device_id)) as [o c1 evs].
  cbn [result final emitted] in *. subst o.
  rewrite Forall_forall in Hprints.
  destruct (default_models h) as [models|e]; cbn [result final emitted app].
  - pose proof (main_loop_requests fuel (script h) 0 (time_loop_start h)
                  (set_loaded_models models c1) ev) as Hloop.
    destruct (main_loop fuel (script h) 0 (time_loop_start h) (set_loaded_models models c1))
      as [o c2 evs2]. cbn [result final emitted app] in *.
    rewrite in_app_iff. cbn [In]. intros [Hin|[<-|Hin]] Hpost.
    + apply list_elem_of_In, Hprints in Hin. by destruct ev.
    + done.
    + eapply worker_request_settings; [|by apply Hloop]. by repeat split.
  - rewrite in_app_iff. cbn [In]. intros [Hin|[<-|[]]] Hpost; [|done].
    apply list_elem_of_In, Hprints in Hin. by destruct ev.
Qed.

Lemma main_requests_witness :
  worker_request (final (load_config (Sample.host 2) 1 Sample.two_devices))
    (EvPost "https://coordinator/miner_request"
       {[ "version" := VStr "1.1.0"; "hardware" := VStr "gpu";
          "miner_id" := VStr "0xB"; "model_id" := VStr "m1";
          "min_deadline" := VInt 3 ]} "0xB").
Proof.
  apply (main_requests (Sample.host 2) 1 1).
  - by vm_compute.
  - vm_compute. right. right. left. reflexivity.
  - reflexivity.
Defined.

(** X18. A worker whose constructor or whose [load_default_model] raises
    ends with that exception before its loop: it has posted no request and
    has not slept. *)
Theorem main_setup_fails (h : Host) (cuda_device_id fuel : nat) (e : exn) :
  let loaded := load_config h cuda_device_id (base_config h cuda_device_id) in
  result loaded = Raise e ∨ (result loaded = Ret tt ∧ default_models h = Raise e) →
  result (main h cuda_device_id fuel) = Raise e ∧
  only is_post (emitted (main h cuda_device_id fuel)) = [] ∧
  only is_sleep (emitted (main h cuda_device_id fuel)) = [].
Proof.
  cbn zeta. intros Hfail.
  pose proof (load_config_prints h cuda_device_id (base_config h cuda_device_id)) as Hprints.
  unfold main. run_monad.
  destruct (load_config h cuda_device_id (base_config h cuda_device_id)) as [o c1 evs].
  cbn [result final emitted] in *.
  destruct Hfail as [->|[-> ->]]; cbn [result final emitted app].
  - split_and!; [done|..]; by apply (only_disjoint _ is_print); [intros []|].
  - rewrite !only_app. split_and!; [done|..].
    all: rewrite (only_disjoint _ is_print evs); [done|by intros []|done].
Qed.

Lemma main_setup_fails_witness :
  result (main (Sample.host 2) 3 5) = Raise IndexError ∧
  only is_post (emitted (main (Sample.host 2) 3 5)) = [] ∧
  only is_sleep (emitted (main (Sample.host 2) 3 5)) = [].
Proof.
  apply (main_setup_fails (Sample.host 2) 3 5 IndexError).
  left. by vm_compute.
Defined.

(** X19. When the config loads, the device count fits the machine and
    [check_cuda] returns, the supervisor checks the devices, synchronises
    the files and starts the updater, then starts one worker for every
    device index below [num_cuda_devices], in order, and only then joins
    them, in the same order. *)
Theorem supervisor_starts_all (h : Host) :
  let loaded := load_config h 0 (base_config h 0) in
  let n := num_cuda_devices (final loaded) in
  result loaded = Ret tt →
  (n ≤ device_count h)%nat →
  check_cuda_answer h = Ret tt →
  supervisor h =
    Run (Ret tt) (final loaded)
      (emitted loaded ++ [EvCheckCuda; EvFetchConfigFiles; EvStartUpdater] ++
       (EvSpawn <$> seq 0 n) ++ (EvJoin <$> seq 0 n)).
Proof.
  cbn zeta. intros Hloaded Hcount Hcuda.
  pose proof for_each_spawn as Hspawn. pose proof for_each_join as Hjoin.
  unfold emit in Hspawn, Hjoin.
  unfold supervisor. run_monad.
  destruct (load_config h 0 (base_config h 0)) as [o c1 evs].
  cbn [result final emitted] in *. subst o.
  apply Nat.ltb_ge in Hcount. rewrite Hcount, Hcuda. cbn [result final emitted app].
  rewrite Hspawn. cbn [result final emitted app]. rewrite Hjoin.
  by cbn [result final emitted app].
Qed.

Lemma supervisor_starts_all_witness :
  only is_spawn (emitted (supervisor (Sample.host 2))) = [EvSpawn 0; EvSpawn 1].
Proof.
  rewrite (supervisor_starts_all (Sample.host 2)).
  - by vm_compute.
  - by vm_compute.
  - vm_compute. lia.
  - reflexivity.
Defined.

(** X20. The supervisor starts workers only after its whole validation:
    if a worker was spawned, then the config had loaded, the device count
    fitted the machine and [check_cuda] had returned. *)
Theorem supervisor_spawns_after_validation (h : Host) :
  let loaded := load_config h 0 (base_config h 0) in
  only is_spawn (emitted (supervisor h)) ≠ [] →
  result loaded = Ret tt ∧
  (num_cuda_devices (final loaded) ≤ device_count h)%nat ∧
  check_cuda_answer h = Ret tt.
Proof.
  cbn zeta.
  pose proof (load_config_prints h 0 (base_config h 0)) as Hprints.
  unfold supervisor. run_monad.
  destruct (load_config h 0 (base_config h 0)) as [[[]|e] c1 evs];
    cbn [result final emitted app] in *.
  - destruct (Nat.ltb_spec (device_count h) (num_cuda_devices c1));
      cbn [result final emitted app].
    + by rewrite only_app, (only_disjoint is_spawn is_print evs); [|intros []|].
    + destruct (check_cuda_answer h) as [[]|e]; cbn [result final emitted app]; [done|].
      by rewrite only_app, (only_disjoint is_spawn is_print evs); [|intros []|].
  - by rewrite (only_disjoint is_spawn is_print evs); [|intros []|].
Qed.

Lemma supervisor_spawns_after_validation_witness :
  result (load_config (Sample.host 2) 0 (base_config (Sample.host 2) 0)) = Ret tt ∧
  (num_cuda_devices (final (load_config (Sample.host 2) 0 (base_config (Sample.host 2) 0)))
   ≤ device_count (Sample.host 2))%nat ∧
  check_cuda_answer (Sample.host 2) = Ret tt.
Proof.
  apply (supervisor_spawns_after_validation (Sample.host 2)).
  vm_compute. discriminate.
Defined.

(** The check posts at most once and reloads at most once; it neither
    submits nor sleeps. *)
Lemma check_and_reload_model_counts (a : Answers) (last_signal_time : Z) (c : Config) :
  let evs := emitted (check_and_reload_model a last_signal_time c) in
  (length (only is_post evs) ≤ 1)%nat ∧ (length (only is_reload evs) ≤ 1)%nat ∧
  only is_submit evs = [] ∧ only is_sleep evs = [].
Proof.
  cbn zeta. unfold check_and_reload_model, post_request, reload_model, json. run_monad.
  split_run; cbn; split_and!; (done || lia).
Qed.

(** [process_jobs] posts at most once and submits at most once; it neither
    reloads nor sleeps. *)
Lemma process_jobs_counts (a : Answers) (c : Config) :
  let evs := emitted (process_jobs a c) in
  (length (only is_post evs) ≤ 1)%nat ∧ (length (only is_submit evs) ≤ 1)%nat ∧
  only is_reload evs = [] ∧ only is_sleep evs = [].
Proof.
  cbn zeta. destruct (decide (local_ids a = [])) as [Hids|Hids].
  { rewrite (process_jobs_no_models a c Hids). cbn. split_and!; (done || lia). }
  set (model := first_or_None (loaded_models c)).
  pose proof (send_miner_request_only is_submit a model (min_deadline c) c) as Hsubmit.
  pose proof (send_miner_request_only is_reload a model (min_deadline c) c) as Hreload.
  pose proof (send_miner_request_only is_sleep a model (min_deadline c) c) as Hsleep.
  assert (length (only is_post (emitted (send_miner_request a model (min_deadline c) c))) ≤ 1)%nat
    as Hpost.
  { destruct (send_miner_request_run a model (min_deadline c) c) as (o & rest & -> & Hrest & _).
    cbn [emitted]. rewrite only_app, (only_cons_true is_post) by done.
    rewrite (only_disjoint is_post about_response rest); [|by intros []|done].
    case_match; cbn; lia. }
  destruct (send_miner_request a model (min_deadline c) c) as [[[job latency]|e] c1 evs] eqn:Hsend;
    cbn [emitted] in *.
  - rewrite (process_jobs_after_request a c c1 job latency evs Hids Hsend).
    destruct (truthy job);
      [destruct (py_getitem job "job_id"); [destruct (py_getitem job "model_id");
        [destruct (py_getitem job "temp_credentials")|]|]|].
    all: cbn [emitted]; rewrite ?only_app.
    all: rewrite Hsubmit by (by intros [[]|[] []| | | | | | | | |]).
    all: rewrite Hreload by (by intros [[]|[] []| | | | | | | | |]).
    all: rewrite Hsleep by (by intros [[]|[] []| | | | | | | | |]).
    all: cbn; rewrite ?length_app; cbn; split_and!; (done || lia).
  - rewrite (process_jobs_request_raises a c c1 e evs Hids Hsend). cbn [emitted].
    rewrite Hsubmit by (by intros [[]|[] []| | | | | | | | |]).
    rewrite Hreload by (by intros [[]|[] []| | | | | | | | |]).
    rewrite Hsleep by (by intros [[]|[] []| | | | | | | | |]).
    cbn. split_and!; (done || lia).
Qed.

(** X21. One turn of the loop posts at most two requests, reloads at most
    one model, submits at most one result and sleeps at most once. *)
Theorem iteration_counts (a : Answers) (last_signal_time : Z) (c : Config) :
  let evs := emitted (iteration a last_signal_time c) in
  (length (only is_post evs) ≤ 2)%nat ∧ (length (only is_reload evs) ≤ 1)%nat ∧
  (length (only is_submit evs) ≤ 1)%nat ∧ (length (only is_sleep evs) ≤ 1)%nat.
Proof.
  cbn zeta.
  pose proof (iteration_run a last_signal_time c) as Hrun. cbn zeta in Hrun.
  pose proof (try_block_no_sleep a last_signal_time c) as Hquiet.
  pose proof (try_block_split a last_signal_time c) as Hsplit. cbn zeta in Hsplit.
  destruct (check_and_reload_model_counts a last_signal_time c) as (Hp1 & Hr1 & Hs1 & _).
  assert ((length (only is_post (emitted (try_block a last_signal_time c))) ≤ 2)%nat ∧
          (length (only is_reload (emitted (try_block a last_signal_time c))) ≤ 1)%nat ∧
          (length (only is_submit (emitted (try_block a last_signal_time c))) ≤ 1)%nat)
    as (Hp & Hr & Hs).
  { rewrite Hsplit, !only_app, !length_app, Hs1.
    destruct (result (check_and_reload_model a last_signal_time c)).
    - destruct (process_jobs_counts a (final (check_and_reload_model a last_signal_time c)))
        as (Hp2 & Hs2 & Hr2 & _).
      rewrite Hr2. cbn [length app]. split_and!; lia.
    - cbn. split_and!; lia. }
  destruct (result (try_block a last_signal_time c)) as [[t []]|e].
  - rewrite Hrun. cbn [emitted]. rewrite Hquiet. cbn. split_and!; lia.
  - rewrite Hrun. cbn [emitted]. rewrite !only_app, !length_app, Hquiet. cbn.
    split_and!; lia.
  - destruct (is_Exception e); [destruct Hrun as [t ->]|rewrite Hrun]; cbn [emitted].
    + rewrite !only_app, !length_app, Hquiet. cbn. split_and!; lia.
    + rewrite Hquiet. cbn. split_and!; lia.
Qed.

Lemma heartbeat_advances_witness :
  last_heartbeat Sample.config + 60 ≤
    last_heartbeat (final (send_miner_request (Sample.idle 1100) (VStr "m1") 3 Sample.config)).
Proof.
  apply (heartbeat_advances (Sample.idle 1100) (VStr "m1") 3 Sample.config).
  - vm_compute. discriminate.
  - vm_compute. discriminate.
Defined.

(** ** The exit code of a worker *)

(** For an exit through [sys.exit] the exit code of a worker process is the
    status an interpreter would leave with. *)
Lemma worker_status_SystemExit {A : Type} (r : run A) (code : Z) :
  result r = Raise (SystemExit code) →
  worker_status r = code ∧ worker_status r = process_status r.
Proof. unfold worker_status, process_status. by intros ->. Qed.

(** A worker that an [Exception] or a [KeyboardInterrupt] ends exits with
    code 1. *)
Lemma worker_status_other {A : Type} (r : run A) (e : exn) :
  result r = Raise e →
  (∀ code, e ≠ SystemExit code) →
  worker_status r = 1.
Proof.
  unfold worker_status. intros -> Hne. destruct e; try done. by destruct (Hne code).
Qed.
